(** * Brave search MCP server and homepage resolver: a shallow embedding

    The development follows the two Python modules of the repository:

    - [src/server.py]: the [RateLimit] dataclass with its [check] method and
      the [BraveSearchServer] tools ([brave_web_search], [brave_local_search])
      with their helpers;
    - [find_homepages.py]: [is_official_candidate], [get_brave_homepage],
      [get_wikidata_homepage] and the resolution chain of the main block.

    Data.  Python integers are [Z]; the readings of [time.time()] are
    rationals (the subtraction [now - self._last_reset] of two doubles that
    lie within a factor two of each other is exact, so exact rational
    subtraction is what the interpreter computes on clock readings); [str]
    values are [string], taken as ASCII text; the [_requests] dictionary is
    a [gmap string Z]; decoded JSON payloads are values of the inductive
    type [json], a dict being the list of its items.

    Effects.  A Python call either returns or raises: [outcome].  The tools
    of the server run in a state monad over [World], which holds the
    [rate_limit] object and the trace of the calls of [check] and of the
    HTTP requests; the clock and the upstream are parameters.  The two
    [while] loops are defined by well-founded recursion on [40 - offset].

    Left out: the headers and timeouts of the single requests (the client
    of [get_client] holds them), and the rendering of the final text
    ([_format_web_results] and [_format_local_results] are modelled up to
    the list of entries that the text is made of). *)

From Stdlib Require Import ZArith QArith List String Ascii Bool Lia.
From stdpp Require Import base option gmap strings.
From Equations.Prop Require Import Equations Logic.
Import ListNotations.

Set Warnings "-register-all".

Local Open Scope string_scope.
Local Open Scope Z_scope.

(** ** Exceptions and outcomes *)

(** The exception classes that the modelled code can raise. *)
Inductive exn : Type :=
| RateLimitError      (* server.py, line 14 *)
| KeyError            (* d[k] on a dict without k *)
| IndexError          (* l[0] on an empty sequence *)
| TypeError           (* an operation on a value of the wrong type *)
| AttributeError      (* .get / .extend on a value that has no such method *)
| TransportError      (* httpx.RequestError: the request got no response *)
| HTTPStatusError     (* raised by Response.raise_for_status *)
| JSONDecodeError.    (* raised by Response.json *)

Inductive outcome (A : Type) : Type :=
| Returns (a : A)
| Raises (e : exn).
Arguments Returns {A} a.
Arguments Raises {A} e.

Definition is_returns {A} (o : outcome A) : bool :=
  match o with Returns _ => true | Raises _ => false end.

(** ** RateLimit (server.py, lines 17-39) *)

Module RateLimit.

Record t : Type := mk {
  per_second : Z;
  per_month : Z;
  _requests : gmap string Z;
  _last_reset : Q
}.

(** The dataclass constructor followed by [__post_init__] (lines 24-26);
    [now] is the reading of [time.time()] taken there. *)
Definition __post_init__ (per_second per_month : Z) (now : Q) : t :=
  {| per_second := per_second;
     per_month := per_month;
     _requests := <["second" := 0]> (<["month" := 0]> ∅);
     _last_reset := now |}.

(** [x > y] on clock readings. *)
Definition Qgt_bool (x y : Q) : bool := negb (Qle_bool x y).

(** Lines 30-32: the short window is reopened when more than one second
    has passed since [_last_reset]. *)
Definition window_reset (self : t) (now : Q) : t :=
  if Qgt_bool (now - _last_reset self) 1 then
    {| per_second := per_second self;
       per_month := per_month self;
       _requests := <["second" := 0]> (_requests self);
       _last_reset := now |}
  else self.

(** [self._requests[k] += 1]: a read of the key, then a write. *)
Definition incr (k : string) (self : t) : outcome t :=
  match _requests self !! k with
  | None => Raises KeyError
  | Some v =>
      Returns {| per_second := per_second self;
                 per_month := per_month self;
                 _requests := <[k := v + 1]> (_requests self);
                 _last_reset := _last_reset self |}
  end.

(** Lines 34-39: the test of both counters (the [or] evaluates its right
    operand only when the left one is false), the [raise], and the two
    increments.  The second component is the object after the call. *)
Definition admit_or_raise (self : t) : outcome unit * t :=
  match _requests self !! "second" with
  | None => (Raises KeyError, self)
  | Some s =>
      if per_second self <=? s then (Raises RateLimitError, self)
      else
        match _requests self !! "month" with
        | None => (Raises KeyError, self)
        | Some m =>
            if per_month self <=? m then (Raises RateLimitError, self)
            else
              match incr "second" self with
              | Raises e => (Raises e, self)
              | Returns self1 =>
                  match incr "month" self1 with
                  | Raises e => (Raises e, self1)
                  | Returns self2 => (Returns tt, self2)
                  end
              end
        end
  end.

(** [check] (lines 28-39), with the clock reading of line 29 as argument. *)
Definition check (self : t) (now : Q) : outcome unit * t :=
  admit_or_raise (window_reset self now).

(** A sequence of calls at the given clock readings. *)
Fixpoint run_checks (self : t) (times : list Q) : list (outcome unit) * t :=
  match times with
  | [] => ([], self)
  | now :: rest =>
      let '(o, self1) := check self now in
      let '(os, self2) := run_checks self1 rest in
      (o :: os, self2)
  end.

(** The number of calls that were let through. *)
Definition successes (os : list (outcome unit)) : Z :=
  Z.of_nat (List.length (List.filter is_returns os)).

(** Both counters are present: what [__post_init__] establishes. *)
Definition has_counters (self : t) (s m : Z) : Prop :=
  _requests self !! "second" = Some s ∧ _requests self !! "month" = Some m.

(** Counters that are present and not negative: the invariant of the
    objects made by [__post_init__]. *)
Definition counting (self : t) : Prop :=
  exists s m, has_counters self s m /\ 0 <= s /\ 0 <= m.

(** The object after a successful admission from the counts [s] and [m]. *)
Definition admitted (self : t) (s m : Z) : t :=
  {| per_second := per_second self;
     per_month := per_month self;
     _requests := <["month" := m + 1]> (<["second" := s + 1]> (_requests self));
     _last_reset := _last_reset self |}.

End RateLimit.

(** ** The reference governor of the specification (sections 3 and 4.1) *)

Module RateGovernor.

Record RateWindow : Type := { count : Z; windowStart : Q }.

Record t : Type := {
  short : RateWindow;
  long : RateWindow;
  shortLimit : Z;
  longLimit : Z
}.

Inductive admission : Type := Ok | Fails_RateLimitExceeded.

(** Reference step, after the words of section 4.1: reset of the short
    window when more than one time-unit has elapsed ... *)
Definition reset_step (g : t) (now : Q) : t :=
  if RateLimit.Qgt_bool (now - windowStart (short g)) 1 then
    {| short := {| count := 0; windowStart := now |};
       long := long g;
       shortLimit := shortLimit g;
       longLimit := longLimit g |}
  else g.

(** ... then failure without mutation when a ceiling is reached, and an
    increment of both counters otherwise. *)
Definition admit_step (g : t) : admission * t :=
  if (shortLimit g <=? count (short g)) || (longLimit g <=? count (long g))
  then (Fails_RateLimitExceeded, g)
  else (Ok,
        {| short := {| count := count (short g) + 1;
                       windowStart := windowStart (short g) |};
           long := {| count := count (long g) + 1;
                      windowStart := windowStart (long g) |};
           shortLimit := shortLimit g;
           longLimit := longLimit g |}).

Definition admit_call (g : t) (now : Q) : admission * t :=
  admit_step (reset_step g now).

End RateGovernor.

(** The [RateLimit] object [self] represents the governor [g]. *)
Definition represents (self : RateLimit.t) (g : RateGovernor.t) : Prop :=
  RateLimit.has_counters self
    (RateGovernor.count (RateGovernor.short g))
    (RateGovernor.count (RateGovernor.long g))
  ∧ RateLimit._last_reset self = RateGovernor.windowStart (RateGovernor.short g)
  ∧ RateLimit.per_second self = RateGovernor.shortLimit g
  ∧ RateLimit.per_month self = RateGovernor.longLimit g.

(** The outcome of [check] matches the admission of the reference step. *)
Definition same_verdict (o : outcome unit) (a : RateGovernor.admission) : Prop :=
  match o, a with
  | Returns _, RateGovernor.Ok => True
  | Raises RateLimitError, RateGovernor.Fails_RateLimitExceeded => True
  | _, _ => False
  end.

(** ** Decoded JSON payloads and the Python operations applied to them *)

Inductive json : Type :=
| JNull
| JBool (b : bool)
| JInt (n : Z)
| JFloat (q : Q)
| JStr (s : string)
| JList (items : list json)
| JDict (kvs : list (string * json)).   (* keys pairwise distinct *)

Module Py.

Definition obind {A B} (o : outcome A) (k : A -> outcome B) : outcome B :=
  match o with
  | Returns a => k a
  | Raises e => Raises e
  end.

Fixpoint assoc (k : string) (kvs : list (string * json)) : option json :=
  match kvs with
  | [] => None
  | (k', v) :: rest => if String.eqb k k' then Some v else assoc k rest
  end.

(** [needle in hay] on two [str] values. *)
Fixpoint str_in (needle hay : string) : bool :=
  String.prefix needle hay ||
  match hay with
  | EmptyString => false
  | String _ hay' => str_in needle hay'
  end.

(** [hay.endswith(needle)]. *)
Fixpoint endswith (hay needle : string) : bool :=
  String.eqb hay needle ||
  match hay with
  | EmptyString => false
  | String _ hay' => endswith hay' needle
  end.

Definition lower_ascii (c : ascii) : ascii :=
  let n := nat_of_ascii c in
  if (Nat.leb 65 n && Nat.leb n 90)%bool then ascii_of_nat (n + 32) else c.

(** [s.lower()], on ASCII text. *)
Fixpoint lower (s : string) : string :=
  match s with
  | EmptyString => EmptyString
  | String c s' => String (lower_ascii c) (lower s')
  end.

(** [sep.join(parts)]. *)
Definition join (sep : string) (parts : list string) : string :=
  String.concat sep parts.

(** Truth value of a decoded value ([if not v], [v or d]). *)
Definition truthy (v : json) : bool :=
  match v with
  | JNull => false
  | JBool b => b
  | JInt n => negb (n =? 0)
  | JFloat q => negb (Qeq_bool q 0)
  | JStr s => negb (String.eqb s "")
  | JList items => match items with [] => false | _ => true end
  | JDict kvs => match kvs with [] => false | _ => true end
  end.

(** [d.get(k, default)]: only a dict has the method. *)
Definition dict_get (d : json) (k : string) (default : json) : outcome json :=
  match d with
  | JDict kvs => Returns (match assoc k kvs with Some v => v | None => default end)
  | _ => Raises AttributeError
  end.

(** [v[k]] with a [str] key [k]. *)
Definition getitem (v : json) (k : string) : outcome json :=
  match v with
  | JDict kvs => match assoc k kvs with Some x => Returns x | None => Raises KeyError end
  | _ => Raises TypeError
  end.

(** [v[0]]. A decoded dict has [str] keys only, so the key [0] is absent. *)
Definition getitem0 (v : json) : outcome json :=
  match v with
  | JList items => match items with x :: _ => Returns x | [] => Raises IndexError end
  | JStr s => match s with String c _ => Returns (JStr (String c "")) | "" => Raises IndexError end
  | JDict _ => Raises KeyError
  | _ => Raises TypeError
  end.

(** [len(v)]. *)
Definition len (v : json) : outcome Z :=
  match v with
  | JList items => Returns (Z.of_nat (List.length items))
  | JStr s => Returns (Z.of_nat (String.length s))
  | JDict kvs => Returns (Z.of_nat (List.length kvs))
  | _ => Raises TypeError
  end.

Fixpoint chars (s : string) : list json :=
  match s with
  | EmptyString => []
  | String c s' => JStr (String c "") :: chars s'
  end.

(** The elements that [for x in v] visits. *)
Definition iter (v : json) : outcome (list json) :=
  match v with
  | JList items => Returns items
  | JStr s => Returns (chars s)
  | JDict kvs => Returns (map (fun kv => JStr (fst kv)) kvs)
  | _ => Raises TypeError
  end.

Definition is_str (k : string) (v : json) : bool :=
  match v with JStr s => String.eqb s k | _ => false end.

(** [k in v] with a [str] value [k]. *)
Definition contains (k : string) (v : json) : outcome bool :=
  match v with
  | JDict kvs => Returns (match assoc k kvs with Some _ => true | None => false end)
  | JList items => Returns (existsb (is_str k) items)
  | JStr s => Returns (str_in k s)
  | _ => Raises TypeError
  end.

(** [l[:n]] on a list, for [n >= 0]. *)
Definition slice_to {A} (n : Z) (l : list A) : list A := firstn (Z.to_nat n) l.

End Py.

Notation "x <-? o ;; k" := (Py.obind o (fun x => k))
  (at level 60, o at next level, right associativity).

(** ** The HTTP client (httpx) *)

Record Request : Type := { endpoint : string; params : list (string * json) }.

(** A response: its status code and its body, [None] when the body is not
    a JSON text. *)
Record Response : Type := { status_code : Z; content : option json }.

(** [Response.raise_for_status()]: an exception unless the status is 2xx. *)
Definition raise_for_status (r : Response) : outcome unit :=
  if (200 <=? status_code r) && (status_code r <? 300) then Returns tt
  else Raises HTTPStatusError.

(** [Response.json()]. *)
Definition Response_json (r : Response) : outcome json :=
  match content r with
  | Some v => Returns v
  | None => Raises JSONDecodeError
  end.

(** ** BraveSearchServer (server.py, lines 41-259) *)

(** What a run of a tool does to the outside: calls of
    [self.rate_limit.check()] (with the clock reading taken there) and
    requests sent through the HTTP client, in program order. *)
Inductive event : Type :=
| EvCheck (now : Q)
| EvGet (req : Request).

Definition is_get (ev : event) : bool :=
  match ev with EvGet _ => true | EvCheck _ => false end.

(** The mutable state a tool runs in: the server's [rate_limit] object and
    the events so far, oldest first. *)
Record World : Type := { rate_limit : RateLimit.t; trace : list event }.

(** One entry of the text built by [_format_web_results] (lines 202-206):
    the three values that the f-string interpolates. *)
Record web_entry : Type := { title : json; description : json; url : json }.

(** The [location] dict of [_format_local_results] (lines 217-227). *)
Record location : Type := {
  loc_name : json;
  loc_address : string;
  loc_phone : json;
  loc_rating : string;
  loc_price : json;
  loc_hours : string;
  loc_description : json
}.

(** The value a tool hands back to its caller. *)
Inductive tool_value : Type :=
| LocalText (locations : list location)
    (* the text of [_format_local_results], one block per location;
       "No local results found" when there is none *)
| WebCoroutine (data : json) (min_results : Z).
    (* the coroutine object made by calling the [async def]
       [_format_web_results(data, min_results)] without [await] *)

Module BraveSearchServer.
Section Server.

(** The reading of [time.time()] and the answer of the upstream to a
    request, each as a function of the number of events before it. *)
Variable clock : nat -> Q.
Variable upstream : nat -> Request -> outcome Response.
(** [str(v)], as an f-string applies it to an interpolated value. *)
Variable py_str : json -> string.

Definition M (A : Type) : Type := World -> outcome A * World.

Definition ret {A} (a : A) : M A := fun w => (Returns a, w).
Definition raise {A} (e : exn) : M A := fun w => (Raises e, w).
Definition lift {A} (o : outcome A) : M A := fun w => (o, w).
Definition bind {A B} (c : M A) (k : A -> M B) : M B :=
  fun w =>
    match c w with
    | (Returns a, w') => k a w'
    | (Raises e, w') => (Raises e, w')
    end.

Notation "x <- c ;; k" := (bind c (fun x => k))
  (at level 60, c at next level, right associativity).

Definition base_url : string := "https://api.search.brave.com/res/v1".

(** [self.rate_limit.check()]. *)
Definition rate_limit_check : M unit :=
  fun w =>
    let now := clock (List.length (trace w)) in
    let '(o, rl) := RateLimit.check (rate_limit w) now in
    (o, {| rate_limit := rl; trace := (trace w ++ [EvCheck now])%list |}).

(** [await client.get(url, params=...)]; the client of [get_client]
    (lines 53-63) carries the headers and the timeout. *)
Definition client_get (req : Request) : M Response :=
  fun w =>
    (upstream (List.length (trace w)) req,
     {| rate_limit := rate_limit w; trace := (trace w ++ [EvGet req])%list |}).

(** [data.get(outer, {}).get("results", [])]. *)
Definition results_of (outer : string) (data : json) : outcome json :=
  inner <-? Py.dict_get data outer (JDict []) ;;
  Py.dict_get inner "results" (JList []).

(** *** _extract_location_ids (lines 175-181) *)

Fixpoint ids_of (results : list json) : outcome (list json) :=
  match results with
  | [] => Returns []
  | result :: rest =>
      has_id <-? Py.contains "id" result ;;
      if has_id : bool then
        id <-? Py.getitem result "id" ;;
        ids <-? ids_of rest ;;
        Returns (id :: ids)
      else ids_of rest
  end.

Definition _extract_location_ids (data : json) : outcome (list json) :=
  results <-? results_of "locations" data ;;
  items <-? Py.iter results ;;
  ids_of items.

(** *** _format_web_results (lines 183-207) *)

Definition web_request (q : json) (offset : Z) : Request :=
  {| endpoint := base_url ++ "/web/search";
     params := [("q", q); ("count", JInt 20); ("offset", JInt offset)] |}.

(** The test of the [while] at line 191 (and at line 133). *)
Definition while_test (size min_results offset : Z) : bool :=
  (size <? min_results) && (offset <? 40).

(** [web_results.extend(more)]. *)
Definition extend (web_results more : json) : outcome json :=
  match web_results with
  | JList items =>
      added <-? Py.iter more ;;
      Returns (JList (items ++ added)%list)
  | _ => Raises AttributeError
  end.

(** Lines 193-198, with [offset] already advanced by line 192. *)
Definition web_backfill_step (data web_results : json) (offset : Z) : M json :=
  q <- lift (Py.dict_get data "query" (JStr "")) ;;
  additional_response <- client_get (web_request q offset) ;;
  additional_data <- lift (Response_json additional_response) ;;
  lift (more <-? results_of "web" additional_data ;; extend web_results more).

(** The [while] loop of lines 191-198. *)
Equations? web_backfill (data : json) (min_results : Z) (web_results : json)
    (offset : Z) (w : World) : outcome json * World
    by wf (Z.to_nat (40 - offset)) lt :=
  web_backfill data min_results web_results offset w
    with Py.len web_results := {
    | Raises e := (Raises e, w)
    | Returns size with inspect (while_test size min_results offset) := {
      | exist _ false _ := (Returns web_results, w)
      | exist _ true Htest
          with web_backfill_step data web_results (offset + 20) w := {
        | (Raises e, w') := (Raises e, w')
        | (Returns web_results', w') :=
            web_backfill data min_results web_results' (offset + 20) w' } } }.
Proof.
  unfold while_test in Htest. apply andb_prop in Htest as [_ Hoff].
  apply Z.ltb_lt in Hoff. lia.
Qed.

(** One pass of the [for] at lines 201-206. *)
Definition web_entry_of (result : json) : outcome web_entry :=
  t <-? Py.dict_get result "title" (JStr "N/A") ;;
  d <-? Py.dict_get result "description" (JStr "N/A") ;;
  u <-? Py.dict_get result "url" (JStr "N/A") ;;
  Returns {| title := t; description := d; url := u |}.

Fixpoint web_entries (results : list json) : outcome (list web_entry) :=
  match results with
  | [] => Returns []
  | result :: rest =>
      e <-? web_entry_of result ;;
      es <-? web_entries rest ;;
      Returns (e :: es)
  end.

(** [web_results[:n]] followed by the iteration over the slice: a dict
    cannot be sliced. *)
Definition sliced (web_results : json) (n : Z) : outcome (list json) :=
  match web_results with
  | JList items => Returns (Py.slice_to n items)
  | JStr s => Returns (Py.slice_to n (Py.chars s))
  | _ => Raises TypeError
  end.

(** The body of the coroutine [_format_web_results(data, min_results)]:
    the entries of the text it returns. *)
Definition _format_web_results (data : json) (min_results : Z)
  : M (list web_entry) :=
  web_results <- lift (results_of "web" data) ;;
  size <- lift (Py.len web_results) ;;
  web_results <-
    (if size <? min_results
     then web_backfill data min_results web_results 0
     else ret web_results) ;;
  size <- lift (Py.len web_results) ;;
  shown <- lift (sliced web_results (Z.max min_results size)) ;;
  lift (web_entries shown).

(** *** _format_address, _format_rating (lines 241-255) *)

(** The operands of [str.join]: each of them has to be a [str]. *)
Fixpoint str_parts (vs : list json) : outcome (list string) :=
  match vs with
  | [] => Returns []
  | JStr s :: rest => parts <-? str_parts rest ;; Returns (s :: parts)
  | _ :: _ => Raises TypeError
  end.

(** [s or "N/A"]. *)
Definition or_NA (s : string) : string :=
  if String.eqb s "" then "N/A" else s.

Definition _format_address (addr : json) : outcome string :=
  street <-? Py.dict_get addr "streetAddress" (JStr "") ;;
  locality <-? Py.dict_get addr "addressLocality" (JStr "") ;;
  region <-? Py.dict_get addr "addressRegion" (JStr "") ;;
  postal <-? Py.dict_get addr "postalCode" (JStr "") ;;
  parts <-? str_parts (List.filter Py.truthy [street; locality; region; postal]) ;;
  Returns (or_NA (Py.join ", " parts)).

Definition _format_rating (rating : json) : outcome string :=
  if negb (Py.truthy rating) then Returns "N/A"
  else
    value <-? Py.dict_get rating "ratingValue" (JStr "N/A") ;;
    count <-? Py.dict_get rating "ratingCount" (JInt 0) ;;
    Returns (py_str value ++ " (" ++ py_str count ++ " reviews)")%string.

(** *** _format_local_results (lines 209-239) *)

(** [descs.get(key, "No description available")] at lines 224-226.  The
    method is looked up on [descs] before the key [poi["id"]] is
    evaluated; a list or a dict is not hashable; the keys of a decoded
    dict are [str] values. *)
Definition description_of (descriptions poi : json) : outcome json :=
  descs <-? Py.dict_get descriptions "descriptions" (JDict []) ;;
  match descs with
  | JDict kvs =>
      id <-? Py.getitem poi "id" ;;
      match id with
      | JStr k =>
          Returns (match Py.assoc k kvs with
                   | Some text => text
                   | None => JStr "No description available"
                   end)
      | JList _ | JDict _ => Raises TypeError
      | _ => Returns (JStr "No description available")
      end
  | _ => Raises AttributeError
  end.

(** Lines 217-227: the entries of the dict literal, in evaluation order. *)
Definition location_of (descriptions poi : json) : outcome location :=
  name <-? Py.dict_get poi "name" (JStr "N/A") ;;
  addr <-? Py.dict_get poi "address" (JDict []) ;;
  address <-? _format_address addr ;;
  phone <-? Py.dict_get poi "phone" (JStr "N/A") ;;
  rating_value <-? Py.dict_get poi "rating" (JDict []) ;;
  rating <-? _format_rating rating_value ;;
  price <-? Py.dict_get poi "priceRange" (JStr "N/A") ;;
  opening <-? Py.dict_get poi "openingHours" (JList []) ;;
  days <-? Py.iter opening ;;
  parts <-? str_parts days ;;
  description <-? description_of descriptions poi ;;
  Returns {| loc_name := name;
             loc_address := address;
             loc_phone := phone;
             loc_rating := rating;
             loc_price := price;
             loc_hours := or_NA (Py.join ", " parts);
             loc_description := description |}.

Fixpoint locations_of (descriptions : json) (pois : list json)
  : outcome (list location) :=
  match pois with
  | [] => Returns []
  | poi :: rest =>
      l <-? location_of descriptions poi ;;
      ls <-? locations_of descriptions rest ;;
      Returns (l :: ls)
  end.

Definition _format_local_results (pois descriptions : json)
  : outcome (list location) :=
  results <-? Py.dict_get pois "results" (JList []) ;;
  items <-? Py.iter results ;;
  locations_of descriptions items.

(** *** _get_location_details (lines 154-173) *)

(** A request whose failure is kept as a value: what [asyncio.gather]
    awaits. *)
Definition client_send (req : Request) : M (outcome Response) :=
  fun w =>
    (Returns (upstream (List.length (trace w)) req),
     {| rate_limit := rate_limit w; trace := (trace w ++ [EvGet req])%list |}).

Definition details_request (resource : string) (ids : list json) : Request :=
  {| endpoint := base_url ++ resource; params := [("ids", JList ids)] |}.

(** Both requests are started; [gather] raises when one of them raised
    (the first argument's exception is taken when both did), and line
    170-173 decode the two bodies. *)
Definition _get_location_details (ids : list json) : M (json * json) :=
  pois_sent <- client_send (details_request "/local/pois" ids) ;;
  desc_sent <- client_send (details_request "/local/descriptions" ids) ;;
  pois_response <- lift pois_sent ;;
  desc_response <- lift desc_sent ;;
  pois <- lift (Response_json pois_response) ;;
  descriptions <- lift (Response_json desc_response) ;;
  ret (pois, descriptions).

(** *** brave_web_search (lines 67-94) *)

Definition brave_web_search (query : string) (count offset : Z) : M tool_value :=
  _ <- rate_limit_check ;;
  response <- client_get (web_request (JStr query) (Z.min offset 9)) ;;
  _ <- lift (raise_for_status response) ;;
  data <- lift (Response_json response) ;;
  ret (WebCoroutine data 10).

(** *** brave_local_search (lines 97-152) *)

Definition local_request (query : string) (offset : option Z) : Request :=
  {| endpoint := base_url ++ "/web/search";
     params := ([("q", JStr query); ("search_lang", JStr "en");
                 ("result_filter", JStr "locations"); ("count", JInt 20)]
                ++ match offset with
                   | Some n => [("offset", JInt n)]
                   | None => []
                   end)%list |}.

(** Lines 135-146, with [offset] already advanced by line 134. *)
Definition local_backfill_step (query : string) (location_ids : list json)
    (offset : Z) : M (list json) :=
  additional_response <- client_get (local_request query (Some offset)) ;;
  additional_data <- lift (Response_json additional_response) ;;
  more <- lift (_extract_location_ids additional_data) ;;
  ret (location_ids ++ more)%list.

(** The [while] loop of lines 133-146. *)
Equations? local_backfill (query : string) (location_ids : list json)
    (offset : Z) (w : World) : outcome (list json) * World
    by wf (Z.to_nat (40 - offset)) lt :=
  local_backfill query location_ids offset w
    with inspect (while_test (Z.of_nat (List.length location_ids)) 10 offset) := {
    | exist _ false _ := (Returns location_ids, w)
    | exist _ true Htest
        with local_backfill_step query location_ids (offset + 20) w := {
      | (Raises e, w') := (Raises e, w')
      | (Returns location_ids', w') :=
          local_backfill query location_ids' (offset + 20) w' } }.
Proof.
  unfold while_test in Htest. apply andb_prop in Htest as [_ Hoff].
  apply Z.ltb_lt in Hoff. lia.
Qed.

Definition brave_local_search (query : string) (count : Z) : M tool_value :=
  _ <- rate_limit_check ;;
  response <- client_get (local_request query None) ;;
  _ <- lift (raise_for_status response) ;;
  data <- lift (Response_json response) ;;
  location_ids <- lift (_extract_location_ids data) ;;
  match location_ids with
  | [] => brave_web_search query 20 0
  | _ :: _ =>
      location_ids <- local_backfill query location_ids 0 ;;
      let n := Z.max 10 (Z.of_nat (List.length location_ids)) in
      details <- _get_location_details (Py.slice_to n location_ids) ;;
      locations <- lift (_format_local_results (fst details) (snd details)) ;;
      ret (LocalText locations)
  end.

(** The web search as it runs when the caller awaits the coroutine object
    that [brave_web_search] returns. *)
Definition web_search_awaited (query : string) (count offset : Z)
  : M (list web_entry) :=
  v <- brave_web_search query count offset ;;
  match v with
  | WebCoroutine data min_results => _format_web_results data min_results
  | LocalText _ => raise TypeError
  end.

(** The ["q"] parameter of the requests of the web backfill loop: what
    [data.get("query", "")] gives at line 195. *)
Definition query_param (data : json) : json :=
  match Py.dict_get data "query" (JStr "") with
  | Returns q => q
  | Raises _ => JNull
  end.

(** The world after further events, the [rate_limit] object untouched. *)
Definition after (w : World) (evs : list event) : World :=
  {| rate_limit := rate_limit w; trace := (trace w ++ evs)%list |}.

(** The events a computation adds to the trace. *)
Definition events_of {A} (c : M A) (w : World) : list event :=
  skipn (List.length (trace w)) (trace (snd (c w))).

Definition fetches_of {A} (c : M A) (w : World) : list event :=
  List.filter is_get (events_of c w).

(** *** get_client (lines 53-63) *)

(** An [httpx.AsyncClient]: the headers and the timeout it was made with,
    and whether it has been closed. *)
Record AsyncClient : Type := {
  headers : list (string * string);
  timeout : Q;
  is_closed : bool
}.

(** [self._client] is [None] until the first call.  The result is the
    client that is returned and the value of [self._client] after the
    call. *)
Definition get_client (api_key : string) (_client : option AsyncClient)
  : AsyncClient * option AsyncClient :=
  let made :=
    {| headers := [("X-Subscription-Token", api_key);
                   ("Accept", "application/json");
                   ("Accept-Encoding", "gzip")];
       timeout := 30;
       is_closed := false |} in
  match _client with
  | None => (made, Some made)
  | Some c => if is_closed c then (made, Some made) else (c, Some c)
  end.

End Server.
End BraveSearchServer.

(** ** find_homepages.py *)

Module FindHomepages.

Definition SEARCH_URL : string := "https://api.search.brave.com/res/v1/web/search".
Definition WIKIDATA_SEARCH : string := "https://www.wikidata.org/w/api.php".
Definition WIKIDATA_ENTITY : string := "https://www.wikidata.org/w/api.php".

(** Line 11.  A Python set; it is only searched ([any], [in]), so the
    order of the list plays no role. *)
Definition BLACKLIST : list string :=
  ["wikipedia.org"; "facebook.com"; "twitter.com"; "linkedin.com"].

(** The one-character string made of a double quote. *)
Definition dquote : string := String (ascii_of_nat 34) EmptyString.

Section Resolver.

(** [urlparse(url).hostname] of the standard library: [None] when the
    URL has no host, an exception on a value it cannot parse. *)
Variable hostname : json -> outcome (option string).
(** [httpx.get(url, params=..., ...)]. *)
Variable httpx_get : Request -> outcome Response.

(** [h or ""]. *)
Definition or_empty (h : option string) : string :=
  match h with Some s => s | None => "" end.

(** Lines 13-19. *)
Definition is_official_candidate (url : json) (company : string) : outcome bool :=
  h <-? hostname url ;;
  let host := or_empty h in
  if existsb (fun domain => Py.str_in domain host) BLACKLIST then Returns false
  else Returns (Py.str_in (Py.lower company) (Py.lower host)).

(** [urlparse(url).hostname not in BLACKLIST] (line 39): membership in the
    set, by equality. *)
Definition not_in_BLACKLIST (url : json) : outcome bool :=
  h <-? hostname url ;;
  Returns (negb (match h with
                 | Some host => existsb (String.eqb host) BLACKLIST
                 | None => false
                 end)).

(** The [for] of lines 32-35; [None] when it runs to its end. *)
Fixpoint first_pass (company : string) (results : list json)
  : outcome (option json) :=
  match results with
  | [] => Returns None
  | r :: rest =>
      url <-? Py.dict_get r "url" (JStr "") ;;
      ok <-? is_official_candidate url company ;;
      if ok : bool then Returns (Some url) else first_pass company rest
  end.

(** The [for] of lines 37-40. *)
Fixpoint second_pass (results : list json) : outcome (option json) :=
  match results with
  | [] => Returns None
  | r :: rest =>
      url <-? Py.dict_get r "url" (JStr "") ;;
      ok <-? not_in_BLACKLIST url ;;
      if ok : bool then Returns (Some url) else second_pass rest
  end.

(** Lines 32-40 on the decoded [results]. *)
Definition scan (company : string) (results : json) : outcome json :=
  items <-? Py.iter results ;;
  found <-? first_pass company items ;;
  match found with
  | Some url => Returns url
  | None =>
      found <-? second_pass items ;;
      match found with
      | Some url => Returns url
      | None => Returns JNull
      end
  end.

Definition brave_request (company : string) (count : Z) : Request :=
  {| endpoint := SEARCH_URL;
     params := [("q", JStr (dquote ++ company ++ dquote ++ " official website"));
                ("count", JInt count)] |}.

(** The [try] block of lines 28-40, falling through to line 43. *)
Definition brave_try (company : string) (count : Z) : outcome json :=
  resp <-? httpx_get (brave_request company count) ;;
  _ <-? raise_for_status resp ;;
  data <-? Response_json resp ;;
  web <-? Py.dict_get data "web" (JDict []) ;;
  results <-? Py.dict_get web "results" (JList []) ;;
  scan company results.

(** Lines 21-43; [JNull] is Python's [None]. *)
Definition get_brave_homepage (company : string) (count : Z) : json :=
  match brave_try company count with
  | Returns url => url
  | Raises _ => JNull
  end.

Definition wikidata_search_request (company : string) : Request :=
  {| endpoint := WIKIDATA_SEARCH;
     params := [("action", JStr "wbsearchentities"); ("format", JStr "json");
                ("language", JStr "en"); ("search", JStr company)] |}.

Definition wikidata_claims_request (qid : json) : Request :=
  {| endpoint := WIKIDATA_ENTITY;
     params := [("action", JStr "wbgetclaims"); ("format", JStr "json");
                ("entity", qid); ("property", JStr "P856")] |}.

(** The [try] block of lines 54-72. *)
Definition wikidata_try (company : string) : outcome json :=
  r <-? httpx_get (wikidata_search_request company) ;;
  _ <-? raise_for_status r ;;
  data <-? Response_json r ;;
  search <-? Py.dict_get data "search" (JList []) ;;
  if negb (Py.truthy search) then Returns JNull
  else
    first <-? Py.getitem0 search ;;
    qid <-? Py.getitem first "id" ;;
    r2 <-? httpx_get (wikidata_claims_request qid) ;;
    _ <-? raise_for_status r2 ;;
    data2 <-? Response_json r2 ;;
    all_claims <-? Py.dict_get data2 "claims" (JDict []) ;;
    claims <-? Py.dict_get all_claims "P856" (JList []) ;;
    if negb (Py.truthy claims) then Returns JNull
    else
      claim <-? Py.getitem0 claims ;;
      mainsnak <-? Py.getitem claim "mainsnak" ;;
      datavalue <-? Py.getitem mainsnak "datavalue" ;;
      Py.getitem datavalue "value".

(** Lines 45-74. *)
Definition get_wikidata_homepage (company : string) : json :=
  match wikidata_try company with
  | Returns v => v
  | Raises _ => JNull
  end.

(** The body of the loop of the main block (lines 80-83): the value
    stored in [out[name]]. *)
Definition resolve (name : string) : json :=
  let url := get_brave_homepage name 10 in
  let url := if negb (Py.truthy url) then get_wikidata_homepage name else url in
  if Py.truthy url then url else JStr "Not found".

(** Line 77. *)
Definition companies : list string := ["Nestle"; "Roche"; "Novartis"; "UBS"].

(** The dict [out] after the loop of lines 79-83 over [names]. *)
Definition out (names : list string) : gmap string json :=
  fold_left (fun out name => <[name := resolve name]> out) names ∅.

End Resolver.
End FindHomepages.

(** ** The search-engine strategy in the words of the specification
    (sections 3 and 4.4) *)

Module HomepageResolver.

Record HomepageCandidate : Type := { url : string; host : string }.

(** Deny set membership: exact or suffix match on the host. *)
Definition denied (h : string) : bool :=
  existsb (fun d => Py.endswith h d) FindHomepages.BLACKLIST.

(** Name match: the entity name appears in the host, case-insensitively. *)
Definition name_match (entityName h : string) : bool :=
  Py.str_in (Py.lower entityName) (Py.lower h).

Definition pass1 (entityName : string) (cs : list HomepageCandidate)
  : option HomepageCandidate :=
  List.find (fun c => negb (denied (host c)) && name_match entityName (host c)) cs.

Definition pass2 (cs : list HomepageCandidate) : option HomepageCandidate :=
  List.find (fun c => negb (denied (host c))) cs.

Definition search_strategy (entityName : string) (cs : list HomepageCandidate)
  : option HomepageCandidate :=
  match pass1 entityName cs with
  | Some c => Some c
  | None => pass2 cs
  end.

End HomepageResolver.

(** ** Predicates used in the statements *)

(** The code's choice and the specification's choice are the same URL, or
    both are absent. *)
Definition same_choice (o : outcome json)
    (c : option HomepageResolver.HomepageCandidate) : Prop :=
  match o, c with
  | Returns (JStr u), Some c => u = HomepageResolver.url c
  | Returns JNull, None => True
  | _, _ => False
  end.

(** The deny test of [is_official_candidate] (line 16). *)
Definition substring_denied (h : string) : bool :=
  existsb (fun domain => Py.str_in domain h) FindHomepages.BLACKLIST.

(** The test of the first pass, on a candidate. *)
Definition first_pass_accepts (company : string) (c : HomepageResolver.HomepageCandidate) : bool :=
  negb (substring_denied (HomepageResolver.host c))
  && HomepageResolver.name_match company (HomepageResolver.host c).

(** The test of the second pass, on a candidate. *)
Definition second_pass_accepts (c : HomepageResolver.HomepageCandidate) : bool :=
  negb (existsb (String.eqb (HomepageResolver.host c)) FindHomepages.BLACKLIST).

Definition chosen (c : option HomepageResolver.HomepageCandidate) : option json :=
  option_map (fun c => JStr (HomepageResolver.url c)) c.

(** Each decoded result carries the URL of its candidate, whose host is
    what [hostname] finds in it. *)
Definition candidate_of (hostname : json -> outcome (option string))
    (item : json) (c : HomepageResolver.HomepageCandidate) : Prop :=
  Py.dict_get item "url" (JStr "") = Returns (JStr (HomepageResolver.url c))
  /\ hostname (JStr (HomepageResolver.url c)) = Returns (Some (HomepageResolver.host c)).


(** The upstream answers every request for the web page at an offset with
    a JSON body whose results are the list [page offset]. *)
Definition serves_pages (upstream : nat -> Request -> outcome Response)
    (q : json) (page : Z -> list json) : Prop :=
  forall (n : nat) (offset : Z),
    exists resp data,
      upstream n (BraveSearchServer.web_request q offset) = Returns resp
      /\ Response_json resp = Returns data
      /\ BraveSearchServer.results_of "web" data = Returns (JList (page offset)).

Definition size_of {A} (l : list A) : Z := Z.of_nat (List.length l).

(** ** Concrete objects and payloads used in the examples *)

(** The object that [BraveSearchServer.__init__] makes with [RateLimit()]
    (line 49), created at clock reading 0, and the governor it represents. *)
Definition fresh_limit : RateLimit.t := RateLimit.__post_init__ 1 2000 0.

Definition fresh_governor : RateGovernor.t :=
  {| RateGovernor.short := {| RateGovernor.count := 0; RateGovernor.windowStart := 0 |};
     RateGovernor.long := {| RateGovernor.count := 0; RateGovernor.windowStart := 0 |};
     RateGovernor.shortLimit := 1;
     RateGovernor.longLimit := 2000 |}.

(** A server just started: the fresh [rate_limit] and no event yet. *)
Definition started : World := {| rate_limit := fresh_limit; trace := [] |}.

(** A clock that reads half a second after the start at every call. *)
Definition half_second : nat -> Q := fun _ => 1 # 2.

(** A clock that advances by two seconds from one event to the next. *)
Definition two_seconds_apart : nat -> Q :=
  fun n => inject_Z (2 * (Z.of_nat n + 1)).

(** *** Payloads of the web search *)

Definition web_item (name : string) : json :=
  JDict [("title", JStr name); ("description", JStr "text");
         ("url", JStr ("https://example.org/" ++ name))].

(** The three results of a page. *)
Definition abc : list json := [web_item "a"; web_item "b"; web_item "c"].

(** A web-search payload with three results. *)
Definition three_results : json :=
  JDict [("query", JStr "acme");
         ("web", JDict [("results", JList abc)])].

(** An upstream that answers every request with a page of three results,
    however many pages are asked for. *)
Definition three_per_page : nat -> Request -> outcome Response :=
  fun _ _ => Returns {| status_code := 200; content := Some three_results |}.

(** [str(v)] stand-in for the examples, whose payloads carry no rating. *)
Definition no_str : json -> string := fun _ => "".

(** *** Payloads of the location search *)

(** A location-search payload with a single location. *)
Definition one_location : json :=
  JDict [("locations",
          JDict [("results", JList [JDict [("id", JStr "loc1"); ("title", JStr "Cafe")]])])].

Definition poi_payload : json :=
  JDict [("results", JList [JDict [("id", JStr "loc1"); ("name", JStr "Cafe")]])].

Definition description_payload : json :=
  JDict [("descriptions", JDict [("loc1", JStr "A cafe")])].

(** The body the upstream sends with a 429 status. *)
Definition error_payload : json := JDict [("type", JStr "ErrorResponse")].

Definition is_endpoint (resource : string) (req : Request) : bool :=
  String.eqb (endpoint req) (BraveSearchServer.base_url ++ resource).

(** An upstream with one location per page of the location search, and a
    PoI and a description for it. *)
Definition local_upstream : nat -> Request -> outcome Response :=
  fun _ req =>
    if is_endpoint "/local/pois" req then
      Returns {| status_code := 200; content := Some poi_payload |}
    else if is_endpoint "/local/descriptions" req then
      Returns {| status_code := 200; content := Some description_payload |}
    else Returns {| status_code := 200; content := Some one_location |}.

(** The same upstream, except that it rejects the PoI request with the
    status 429 (too many requests) and a JSON error body. *)
Definition pois_rejected : nat -> Request -> outcome Response :=
  fun n req =>
    if is_endpoint "/local/pois" req then
      Returns {| status_code := 429; content := Some error_payload |}
    else local_upstream n req.

(** A PoI payload whose only entry has no ["id"]. *)
Definition poi_without_id : json :=
  JDict [("results", JList [JDict [("name", JStr "Cafe")]])].

(** *** Payloads for the homepage resolver *)

(** [urlparse(url).hostname] on the URLs of the examples. *)
Definition host_table (url : json) : outcome (option string) :=
  match url with
  | JStr u =>
      if String.eqb u "https://en.wikipedia.org/wiki/Acme" then Returns (Some "en.wikipedia.org")
      else if String.eqb u "https://acme.com" then Returns (Some "acme.com")
      else if String.eqb u "https://wikipedia.org.acme.io/" then Returns (Some "wikipedia.org.acme.io")
      else if String.eqb u "https://news.example.com/acme-story" then Returns (Some "news.example.com")
      else Returns None
  | _ => Raises AttributeError
  end.

Definition result_with_url (u : string) : json := JDict [("url", JStr u)].

(** Search results whose first host has a denied domain inside it, but
    neither is one nor ends with one. *)
Definition decoy_results : list json :=
  [result_with_url "https://wikipedia.org.acme.io/"; result_with_url "https://acme.com"].

Definition decoy_candidates : list HomepageResolver.HomepageCandidate :=
  [ {| HomepageResolver.url := "https://wikipedia.org.acme.io/";
       HomepageResolver.host := "wikipedia.org.acme.io" |};
    {| HomepageResolver.url := "https://acme.com";
       HomepageResolver.host := "acme.com" |} ].

(** The first two search results of the example of section 8, and a
    single result without name match. *)
Definition wiki_then_acme_results : list json :=
  [result_with_url "https://en.wikipedia.org/wiki/Acme"; result_with_url "https://acme.com"].

Definition wiki_then_acme_candidates : list HomepageResolver.HomepageCandidate :=
  [ {| HomepageResolver.url := "https://en.wikipedia.org/wiki/Acme";
       HomepageResolver.host := "en.wikipedia.org" |};
    {| HomepageResolver.url := "https://acme.com";
       HomepageResolver.host := "acme.com" |} ].

Definition news_results : list json :=
  [result_with_url "https://news.example.com/acme-story"].

Definition news_candidates : list HomepageResolver.HomepageCandidate :=
  [ {| HomepageResolver.url := "https://news.example.com/acme-story";
       HomepageResolver.host := "news.example.com" |} ].

Definition action_is (name : string) (req : Request) : bool :=
  match Py.assoc "action" (params req) with
  | Some v => Py.is_str name v
  | None => false
  end.

Definition ok_response (data : json) : outcome Response :=
  Returns {| status_code := 200; content := Some data |}.

(** A world in which the search engine knows nothing and the knowledge
    base has the entity Q1 with the official website https://acme.org/. *)
Definition knowledge_base_only : Request -> outcome Response :=
  fun req =>
    if action_is "wbsearchentities" req then
      ok_response (JDict [("search", JList [JDict [("id", JStr "Q1")]])])
    else if action_is "wbgetclaims" req then
      ok_response
        (JDict [("claims",
                 JDict [("P856",
                         JList [JDict [("mainsnak",
                                        JDict [("datavalue",
                                                JDict [("value", JStr "https://acme.org/")])])]])])])
    else ok_response (JDict [("web", JDict [("results", JList [])])]).

(** ** Further predicates and objects *)

(** Both counters are present, not negative and not above their limits. *)
Definition within_limits (self : RateLimit.t) : Prop :=
  exists s m,
    RateLimit.has_counters self s m
    /\ 0 <= s <= RateLimit.per_second self
    /\ 0 <= m <= RateLimit.per_month self.

(** A call returned, or it was refused with [RateLimitError]. *)
Definition let_through_or_refused (o : outcome unit) : Prop :=
  o = Returns tt \/ o = Raises RateLimitError.

(** An upstream that answers every request with the status 503 and a body
    that would pass as a page of results. *)
Definition always_503 : nat -> Request -> outcome Response :=
  fun _ _ => Returns {| status_code := 503; content := Some three_results |}.

(** The requests and the calls of [check] among some events. *)
Definition gets (evs : list event) : nat := List.length (List.filter is_get evs).

Definition checks (evs : list event) : nat :=
  List.length (List.filter (fun ev => negb (is_get ev)) evs).

(** Whatever the world it starts in, the computation [c] adds at most [g]
    requests and [k] calls of [check] to the trace, and takes nothing
    away from it. *)
Definition costs {A} (c : BraveSearchServer.M A) (g k : nat) : Prop :=
  forall w : World,
    exists evs,
      trace (snd (c w)) = (trace w ++ evs)%list
      /\ (gets evs <= g)%nat /\ (checks evs <= k)%nat.

(** An upstream that cannot be reached. *)
Definition unreachable : nat -> Request -> outcome Response :=
  fun _ _ => Raises TransportError.

Definition is_dict (v : json) : bool :=
  match v with JDict _ => true | _ => false end.

(** [None], a boolean or a number: a value on which [in] raises. *)
Definition is_scalar (v : json) : bool :=
  match v with JNull | JBool _ | JInt _ | JFloat _ => true | _ => false end.

(** The ["id"] of a result that is a dict and has one. *)
Definition id_of_entry (entry : json) : option json :=
  match entry with
  | JDict kvs => Py.assoc "id" kvs
  | _ => None
  end.

(** A value that [filter(None, ...)] drops, or a [str]. *)
Definition falsy_or_str (v : json) : bool :=
  negb (Py.truthy v) || match v with JStr _ => true | _ => false end.

(** The four components that [_format_address] reads, with its defaults. *)
Definition address_components (kvs : list (string * json)) : list json :=
  map (fun k => match Py.assoc k kvs with Some v => v | None => JStr "" end)
      ["streetAddress"; "addressLocality"; "addressRegion"; "postalCode"].

(** A location payload with two entries that share an identifier and one
    entry without identifier between them. *)
Definition mixed_locations : json :=
  JDict [("locations",
          JDict [("results",
                  JList [JDict [("id", JStr "a")];
                         JDict [("title", JStr "no id")];
                         JDict [("id", JStr "a")]])])].

(** An upstream of the homepage resolver whose search engine cannot be
    reached; the knowledge base answers as in [knowledge_base_only]. *)
Definition search_engine_down : Request -> outcome Response :=
  fun req =>
    if action_is "wbsearchentities" req then knowledge_base_only req
    else if action_is "wbgetclaims" req then knowledge_base_only req
    else Raises TransportError.

(** A search engine that returns the two results of [wiki_then_acme_results];
    the knowledge base cannot be reached. *)
Definition search_engine_only : Request -> outcome Response :=
  fun req =>
    if action_is "wbsearchentities" req then Raises TransportError
    else if action_is "wbgetclaims" req then Raises TransportError
    else ok_response (JDict [("web", JDict [("results", JList wiki_then_acme_results)])]).

(** A world in which both sources answer: the search engine as in
    [search_engine_only], the knowledge base as in [knowledge_base_only]. *)
Definition both_sources : Request -> outcome Response :=
  fun req =>
    if action_is "wbsearchentities" req then knowledge_base_only req
    else if action_is "wbgetclaims" req then knowledge_base_only req
    else search_engine_only req.

(** A client that has been closed. *)
Definition closed_client : BraveSearchServer.AsyncClient :=
  {| BraveSearchServer.headers := [];
     BraveSearchServer.timeout := 30;
     BraveSearchServer.is_closed := true |}.

(** Twelve identifiers, and a location payload that carries them all on
    one page. *)
Definition twelve_ids : list json :=
  map JStr ["l1"; "l2"; "l3"; "l4"; "l5"; "l6"; "l7"; "l8"; "l9"; "l10"; "l11"; "l12"].

Definition twelve_locations : json :=
  JDict [("locations",
          JDict [("results", JList (map (fun id => JDict [("id", id)]) twelve_ids))])].

(** An upstream that answers every request with that payload. *)
Definition twelve_per_page : nat -> Request -> outcome Response :=
  fun _ _ => Returns {| status_code := 200; content := Some twelve_locations |}.

(** A world in which the search engine returns a single result, on a
    sub-domain of wikipedia.org; the knowledge base answers as in
    [knowledge_base_only]. *)
Definition wikipedia_only : Request -> outcome Response :=
  fun req =>
    if action_is "wbsearchentities" req then knowledge_base_only req
    else if action_is "wbgetclaims" req then knowledge_base_only req
    else ok_response
           (JDict [("web",
                    JDict [("results",
                            JList [result_with_url "https://en.wikipedia.org/wiki/Acme"])])]).

(** * Properties *)

(** ** RateLimit.check *)

Section RateLimitFacts.
Import RateLimit.

Lemma Qgt_bool_true (x y : Q) : Qgt_bool x y = true <-> (y < x)%Q.
Proof.
  unfold Qgt_bool. rewrite negb_true_iff. split.
  - intros H. apply Qnot_le_lt. intros Hle.
    apply Qle_bool_iff in Hle. congruence.
  - intros H. destruct (Qle_bool x y) eqn:E; [|reflexivity].
    apply Qle_bool_iff in E. exfalso. exact (Qlt_not_le _ _ H E).
Qed.

Lemma Qgt_bool_false (x y : Q) : Qgt_bool x y = false <-> (x <= y)%Q.
Proof.
  unfold Qgt_bool. rewrite negb_false_iff. apply Qle_bool_iff.
Qed.

Lemma window_reset_elapsed (self : t) (now : Q) (s m : Z) :
  has_counters self s m ->
  (1 < now - _last_reset self)%Q ->
  has_counters (window_reset self now) 0 m
  /\ _last_reset (window_reset self now) = now
  /\ per_second (window_reset self now) = per_second self
  /\ per_month (window_reset self now) = per_month self.
Proof.
  intros [Hs Hm] Hlt. unfold window_reset.
  apply Qgt_bool_true in Hlt. rewrite Hlt. unfold has_counters. cbn.
  rewrite lookup_insert_eq, lookup_insert_ne by done. auto.
Qed.

Lemma window_reset_within (self : t) (now : Q) :
  (now - _last_reset self <= 1)%Q -> window_reset self now = self.
Proof.
  intros Hle. unfold window_reset.
  apply Qgt_bool_false in Hle. now rewrite Hle.
Qed.

Lemma admitted_counters (self : t) (s m : Z) :
  has_counters (admitted self s m) (s + 1) (m + 1).
Proof.
  unfold has_counters, admitted. cbn.
  rewrite lookup_insert_ne, !lookup_insert_eq by done. auto.
Qed.

Lemma admit_or_raise_spec (self : t) (s m : Z) :
  has_counters self s m ->
  admit_or_raise self =
    if (per_second self <=? s) || (per_month self <=? m)
    then (Raises RateLimitError, self)
    else (Returns tt, admitted self s m).
Proof.
  intros [Hs Hm]. unfold admit_or_raise, incr. rewrite Hs, Hm.
  destruct (per_second self <=? s); [reflexivity|].
  destruct (per_month self <=? m); [reflexivity|]. cbn.
  rewrite lookup_insert_ne, Hm by done. reflexivity.
Qed.

Lemma check_refines (self : t) (g : RateGovernor.t) (now : Q) :
  represents self g ->
  same_verdict (fst (check self now)) (fst (RateGovernor.admit_call g now))
  /\ represents (snd (check self now)) (snd (RateGovernor.admit_call g now)).
Proof.
  intros (Hc & Hw & Hs & Hm).
  assert (Hr : represents (window_reset self now) (RateGovernor.reset_step g now)).
  { unfold window_reset, RateGovernor.reset_step. rewrite Hw.
    destruct Hc as [H1 H2].
    destruct (Qgt_bool _ 1); [|by repeat split].
    repeat split; cbn; try done.
    - by rewrite lookup_insert_eq.
    - by rewrite lookup_insert_ne. }
  unfold check, RateGovernor.admit_call.
  destruct Hr as (Hc' & Hw' & Hs' & Hm').
  rewrite (admit_or_raise_spec _ _ _ Hc').
  unfold RateGovernor.admit_step. rewrite Hs', Hm'.
  destruct Hc' as [H1 H2].
  destruct (_ || _); cbn; [by repeat split|].
  split; [done|]. repeat split; cbn; try done.
  - rewrite lookup_insert_ne, lookup_insert_eq by done. reflexivity.
  - by rewrite lookup_insert_eq.
Qed.

Lemma burst_same_window (times : list Q) :
  forall (self : t) (s m : Z),
    has_counters self s m ->
    s + Z.of_nat (List.length times) <= per_second self ->
    m + Z.of_nat (List.length times) <= per_month self ->
    Forall (fun now => (now - _last_reset self <= 1)%Q) times ->
    exists self',
      run_checks self times = (repeat (Returns tt) (List.length times), self')
      /\ has_counters self' (s + Z.of_nat (List.length times))
                            (m + Z.of_nat (List.length times))
      /\ _last_reset self' = _last_reset self
      /\ per_second self' = per_second self
      /\ per_month self' = per_month self.
Proof.
  induction times as [|now rest IH]; intros self s m Hc Hs Hm Hin.
  - exists self. cbn. rewrite !Z.add_0_r. auto.
  - inversion Hin as [|? ? Hnow Hrest]; subst.
    cbn [List.length] in *. rewrite Nat2Z.inj_succ in *.
    cbn [run_checks]. unfold check.
    rewrite (window_reset_within _ _ Hnow), (admit_or_raise_spec _ _ _ Hc).
    replace (per_second self <=? s) with false by (symmetry; apply Z.leb_gt; lia).
    replace (per_month self <=? m) with false by (symmetry; apply Z.leb_gt; lia).
    cbn [orb].
    destruct (IH (admitted self s m) (s + 1) (m + 1)) as (self' & Hrun & Hc' & Hl & Hp1 & Hp2).
    + apply admitted_counters.
    + cbn. lia.
    + cbn. lia.
    + exact Hrest.
    + exists self'. rewrite Hrun. cbn [repeat].
      replace (s + Z.succ (Z.of_nat (List.length rest)))
        with (s + 1 + Z.of_nat (List.length rest)) by lia.
      replace (m + Z.succ (Z.of_nat (List.length rest)))
        with (m + 1 + Z.of_nat (List.length rest)) by lia.
      auto.
Qed.

Lemma window_reset_idem (self : t) (now : Q) :
  (now - _last_reset (window_reset self now) <= 1)%Q.
Proof.
  unfold window_reset. destruct (Qgt_bool _ 1) eqn:E.
  - cbn. unfold Qminus. rewrite Qplus_opp_r. discriminate.
  - now apply Qgt_bool_false.
Qed.

Lemma counting_init (ps pm : Z) (now : Q) : counting (__post_init__ ps pm now).
Proof. exists 0, 0. repeat split; cbn; try done. Qed.

Lemma counting_check (self : t) (now : Q) :
  counting self ->
  counting (snd (check self now))
  /\ per_second (snd (check self now)) = per_second self
  /\ per_month (snd (check self now)) = per_month self.
Proof.
  intros (s & m & Hc & Hs & Hm). unfold check.
  assert (Hr : exists s', has_counters (window_reset self now) s' m /\ 0 <= s'
                          /\ per_second (window_reset self now) = per_second self
                          /\ per_month (window_reset self now) = per_month self).
  { unfold window_reset. destruct (Qgt_bool _ 1).
    - exists 0. destruct Hc as [H1 H2]. repeat split; cbn; try lia.
      + by rewrite lookup_insert_eq.
      + by rewrite lookup_insert_ne.
    - exists s. auto. }
  destruct Hr as (s' & Hc' & Hs' & Hp1 & Hp2).
  rewrite (admit_or_raise_spec _ _ _ Hc').
  destruct (_ || _); cbn.
  - split; [|auto]. exists s', m. auto.
  - split; [|auto]. exists (s' + 1), (m + 1).
    split; [apply admitted_counters|lia].
Qed.

Lemma counting_run (times : list Q) :
  forall self,
    counting self ->
    counting (snd (run_checks self times))
    /\ per_second (snd (run_checks self times)) = per_second self
    /\ per_month (snd (run_checks self times)) = per_month self.
Proof.
  induction times as [|now rest IH]; intros self H; [by auto|].
  cbn [run_checks].
  destruct (counting_check self now H) as (H1 & H2 & H3).
  destruct (check self now) as [o self1]. cbn in H1, H2, H3.
  destruct (IH self1 H1) as (H4 & H5 & H6).
  destruct (run_checks self1 rest) as [os self2]. cbn in *.
  rewrite H5, H6. auto.
Qed.

Lemma zero_limit_check (self : t) (now : Q) :
  counting self ->
  per_second self = 0 \/ per_month self = 0 ->
  check self now = (Raises RateLimitError, window_reset self now).
Proof.
  intros (s & m & Hc & Hs & Hm) Hz. unfold check.
  assert (Hr : exists s', has_counters (window_reset self now) s' m /\ 0 <= s'
                          /\ per_second (window_reset self now) = per_second self
                          /\ per_month (window_reset self now) = per_month self).
  { unfold window_reset. destruct (Qgt_bool _ 1).
    - exists 0. destruct Hc as [H1 H2]. repeat split; cbn; try lia.
      + by rewrite lookup_insert_eq.
      + by rewrite lookup_insert_ne.
    - exists s. auto. }
  destruct Hr as (s' & Hc' & Hs' & Hp1 & Hp2).
  rewrite (admit_or_raise_spec _ _ _ Hc'), Hp1, Hp2.
  destruct Hz as [-> | ->].
  - replace (0 <=? s') with true by (symmetry; apply Z.leb_le; lia). reflexivity.
  - replace (0 <=? m) with true by (symmetry; apply Z.leb_le; lia).
    rewrite orb_true_r. reflexivity.
Qed.


Lemma check_after_reset (self : t) (now : Q) :
  check (window_reset self now) now = check self now.
Proof.
  unfold check. now rewrite (window_reset_within _ _ (window_reset_idem self now)).
Qed.

Lemma zero_limit_run (times : list Q) :
  forall self,
    counting self ->
    per_second self = 0 \/ per_month self = 0 ->
    Forall (fun o => o = Raises RateLimitError) (fst (run_checks self times)).
Proof.
  induction times as [|now rest IH]; intros self Hc Hz; [constructor|].
  cbn [run_checks].
  destruct (counting_check self now Hc) as (H1 & H2 & H3).
  rewrite (zero_limit_check self now Hc Hz) in *. cbn in H1, H2, H3.
  specialize (IH (window_reset self now) H1).
  destruct (run_checks (window_reset self now) rest) as [os self2].
  cbn in *. constructor; [reflexivity|]. apply IH. rewrite H2, H3. exact Hz.
Qed.

Lemma window_reset_counters (self : t) (now : Q) (s m : Z) :
  has_counters self s m ->
  exists s', has_counters (window_reset self now) s' m
             /\ per_month (window_reset self now) = per_month self.
Proof.
  intros [Hs Hm]. unfold window_reset. destruct (Qgt_bool _ 1).
  - exists 0. repeat split; cbn; [by rewrite lookup_insert_eq | by rewrite lookup_insert_ne].
  - exists s. by repeat split.
Qed.

(** Calls made one after the other: the long counter counts the calls let
    through, and they never exceed the room that [per_month] left. *)
Lemma run_checks_counts (times : list Q) :
  forall (self : t) (s m : Z),
    has_counters self s m ->
    m <= per_month self ->
    (exists s', has_counters (snd (run_checks self times)) s'
                  (m + successes (fst (run_checks self times))))
    /\ m + successes (fst (run_checks self times)) <= per_month self.
Proof.
  induction times as [|now rest IH]; intros self s m Hc Hle.
  - cbn. unfold successes. cbn. rewrite Z.add_0_r. split; [eauto | exact Hle].
  - cbn [run_checks]. unfold check.
    destruct (window_reset_counters self now s m Hc) as (s' & Hc' & Hpm).
    rewrite (admit_or_raise_spec _ _ _ Hc'), Hpm.
    destruct (per_second (window_reset self now) <=? s'); cbn [orb].
    + specialize (IH (window_reset self now) s' m Hc').
      rewrite Hpm in IH. specialize (IH Hle).
      destruct (run_checks (window_reset self now) rest) as [os self2].
      cbn [fst snd] in *. exact IH.
    + destruct (per_month self <=? m) eqn:Hroom.
      * specialize (IH (window_reset self now) s' m Hc').
        rewrite Hpm in IH. specialize (IH Hle).
        destruct (run_checks (window_reset self now) rest) as [os self2].
        cbn [fst snd] in *. exact IH.
      * apply Z.leb_gt in Hroom.
        specialize (IH (admitted (window_reset self now) s' m) (s' + 1) (m + 1)
                      (admitted_counters _ _ _)).
        cbn [admitted per_month] in IH. rewrite Hpm in IH.
        specialize (IH ltac:(lia)).
        destruct (run_checks (admitted (window_reset self now) s' m) rest)
          as [os self2].
        cbn [fst snd] in *. unfold successes in *. cbn [List.filter is_returns List.length].
        rewrite Nat2Z.inj_succ.
        replace (m + Z.succ (Z.of_nat (List.length (List.filter is_returns os))))
          with (m + 1 + Z.of_nat (List.length (List.filter is_returns os))) by lia.
        exact IH.
Qed.

Lemma window_reset_limits (self : t) (now : Q) :
  per_second (window_reset self now) = per_second self
  /\ per_month (window_reset self now) = per_month self.
Proof. unfold window_reset. destruct (Qgt_bool _ 1); auto. Qed.

Lemma check_verdict (self : t) (s m : Z) (now : Q) :
  has_counters (window_reset self now) s m ->
  check self now
  = if (per_second self <=? s) || (per_month self <=? m)
    then (Raises RateLimitError, window_reset self now)
    else (Returns tt, admitted (window_reset self now) s m).
Proof.
  intros Hc. unfold check. rewrite (admit_or_raise_spec _ _ _ Hc).
  destruct (window_reset_limits self now) as [-> ->]. reflexivity.
Qed.

(** C1. [RateLimit.check] follows the reference step of the governor: it
    gives the verdict of the reference and leaves an object that represents
    the reference's next state.  On the object itself: after more than one
    time-unit the short count is 0 and the window starts at the present
    reading, the long count being as before, and otherwise nothing is
    reset; then the call raises [RateLimitError] without changing the
    object any further when a count has reached its limit, and otherwise
    returns with both counts up by one.  Hence, when the first call opens
    or continues a window whose count is 0, the long count leaves room and
    the later calls fall in that window, as many calls as [per_second]
    succeed and the next one raises [RateLimitError]; and an object created
    with a limit of 0 rejects every call. *)
Theorem check_is_reference_step :
  (forall (self : t) (g : RateGovernor.t) (now : Q),
      represents self g ->
      same_verdict (fst (check self now)) (fst (RateGovernor.admit_call g now))
      /\ represents (snd (check self now)) (snd (RateGovernor.admit_call g now)))
  /\ (forall (self : t) (s m : Z) (now : Q),
        has_counters self s m ->
        ((1 < now - _last_reset self)%Q ->
         has_counters (window_reset self now) 0 m
         /\ _last_reset (window_reset self now) = now)
        /\ ((now - _last_reset self <= 1)%Q -> window_reset self now = self))
  /\ (forall (self : t) (s m : Z) (now : Q),
        has_counters (window_reset self now) s m ->
        check self now
        = (if (per_second self <=? s) || (per_month self <=? m)
           then (Raises RateLimitError, window_reset self now)
           else (Returns tt, admitted (window_reset self now) s m))
        /\ has_counters (admitted (window_reset self now) s m) (s + 1) (m + 1))
  /\ (forall (self : t) (m : Z) (first : Q) (rest : list Q) (extra : Q),
        has_counters (window_reset self first) 0 m ->
        m + per_second self <= per_month self ->
        Z.of_nat (List.length (first :: rest)) = per_second self ->
        Forall (fun now => (now - _last_reset (window_reset self first) <= 1)%Q)
               (rest ++ [extra])%list ->
        fst (run_checks self (first :: rest))
          = repeat (Returns tt) (List.length (first :: rest))
        /\ fst (check (snd (run_checks self (first :: rest))) extra)
            = Raises RateLimitError)
  /\ (forall (limit_s limit_m : Z) (created : Q) (times : list Q),
        limit_s = 0 \/ limit_m = 0 ->
        Forall (fun o => o = Raises RateLimitError)
               (fst (run_checks (__post_init__ limit_s limit_m created) times))).
Proof.
  split; [exact check_refines|]. split; [|split; [|split]].
  - intros self s m now Hc. split.
    + intros Hlt. destruct (window_reset_elapsed self now s m Hc Hlt) as (H1 & H2 & _).
      auto.
    + apply window_reset_within.
  - intros self s m now Hc. split;
      [apply check_verdict; exact Hc | apply admitted_counters].
  - intros self m first rest extra Hc Hroom Hlen Hin.
    apply Forall_app in Hin as [Hrest Hextra].
    inversion Hextra as [|? ? Hx _]; subst.
    set (opened := window_reset self first) in *.
    destruct (window_reset_limits self first) as [Hps Hpm].
    fold opened in Hps, Hpm.
    assert (Hrun : run_checks self (first :: rest) = run_checks opened (first :: rest)).
    { cbn [run_checks]. unfold opened. now rewrite check_after_reset. }
    rewrite Hrun.
    destruct (burst_same_window (first :: rest) opened 0 m Hc) as
      (self' & Hr & Hc' & Hl & Hp1 & Hp2).
    + rewrite Hps. lia.
    + rewrite Hpm. lia.
    + constructor; [apply window_reset_idem | exact Hrest].
    + rewrite Hr. cbn [fst snd]. split; [reflexivity|].
      unfold check. rewrite window_reset_within by (now rewrite Hl).
      rewrite (admit_or_raise_spec _ _ _ Hc'), Hp1, Hps.
      replace (per_second self <=? 0 + Z.of_nat (List.length (first :: rest)))
        with true by (symmetry; apply Z.leb_le; lia).
      reflexivity.
  - intros limit_s limit_m created times Hz.
    apply zero_limit_run; [apply counting_init | exact Hz].
Qed.

Lemma check_is_reference_step_witness :
  (same_verdict (fst (check fresh_limit (1 # 2)))
                (fst (RateGovernor.admit_call fresh_governor (1 # 2)))
   /\ represents (snd (check fresh_limit (1 # 2)))
                 (snd (RateGovernor.admit_call fresh_governor (1 # 2))))
  /\ (has_counters (window_reset fresh_limit (3 # 2)) 0 0
      /\ _last_reset (window_reset fresh_limit (3 # 2)) = 3 # 2)
  /\ check fresh_limit (1 # 2) = (Returns tt, admitted fresh_limit 0 0)
  /\ (fst (run_checks fresh_limit [1 # 2]) = [Returns tt]
      /\ fst (check (snd (run_checks fresh_limit [1 # 2])) (3 # 4))
          = Raises RateLimitError)
  /\ Forall (fun o => o = Raises RateLimitError)
            (fst (run_checks (__post_init__ 0 2000 0) [1 # 2; 5 # 2])).
Proof.
  destruct check_is_reference_step as (Hstep & Hreset & Hverdict & Hburst & Hzero).
  split; [|split; [|split; [|split]]].
  - apply Hstep. repeat split; reflexivity.
  - apply (proj1 (Hreset fresh_limit 0 0 (3 # 2) ltac:(split; reflexivity))).
    reflexivity.
  - apply (proj1 (Hverdict fresh_limit 0 0 (1 # 2) ltac:(split; reflexivity))).
  - apply (Hburst fresh_limit 0 (1 # 2) [] (3 # 4)).
    + split; reflexivity.
    + cbn. lia.
    + reflexivity.
    + repeat constructor; cbn; discriminate.
  - apply Hzero. left. reflexivity.
Defined.

End RateLimitFacts.

(** ** The backfill loops *)

Section ServerFacts.
Import BraveSearchServer.
Variable upstream : nat -> Request -> outcome Response.

Lemma after_nil (w : World) : after w [] = w.
Proof. destruct w. unfold after. cbn. now rewrite app_nil_r. Qed.

Lemma after_after (w : World) (evs evs' : list event) :
  after (after w evs) evs' = after w (evs ++ evs')%list.
Proof. unfold after. cbn. now rewrite app_assoc. Qed.

(** One unfolding of the web loop. *)
Lemma web_backfill_eq data min_results web_results offset w :
  web_backfill upstream data min_results web_results offset w =
    match Py.len web_results with
    | Raises e => (Raises e, w)
    | Returns size =>
        if while_test size min_results offset then
          match web_backfill_step upstream data web_results (offset + 20) w with
          | (Raises e, w') => (Raises e, w')
          | (Returns web_results', w') =>
              web_backfill upstream data min_results web_results' (offset + 20) w'
          end
        else (Returns web_results, w)
    end.
Proof.
  revert data min_results web_results offset w.
  apply (web_backfill_elim upstream
           (fun data min_results web_results offset w res =>
              res = match Py.len web_results with
                    | Raises e => (Raises e, w)
                    | Returns size =>
                        if while_test size min_results offset then
                          match web_backfill_step upstream data web_results
                                  (offset + 20) w with
                          | (Raises e, w') => (Raises e, w')
                          | (Returns web_results', w') =>
                              web_backfill upstream data min_results web_results'
                                (offset + 20) w'
                          end
                        else (Returns web_results, w)
                    end)).
  - intros data min_results web_results e offset w Hlen. now rewrite Hlen.
  - intros data min_results web_results size offset e w _ Hlen.
    now rewrite Hlen, e.
  - intros data min_results web_results size offset Htest w wr' w' _ Hstep _ Hlen.
    now rewrite Hlen, Htest, Hstep.
  - intros data min_results web_results size offset Htest w e w' Hstep _ Hlen.
    now rewrite Hlen, Htest, Hstep.
Qed.

(** One unfolding of the location loop. *)
Lemma local_backfill_eq query location_ids offset w :
  local_backfill upstream query location_ids offset w =
    if while_test (Z.of_nat (List.length location_ids)) 10 offset then
      match local_backfill_step upstream query location_ids (offset + 20) w with
      | (Raises e, w') => (Raises e, w')
      | (Returns location_ids', w') =>
          local_backfill upstream query location_ids' (offset + 20) w'
      end
    else (Returns location_ids, w).
Proof.
  revert query location_ids offset w.
  apply (local_backfill_elim upstream
           (fun query location_ids offset w res =>
              res = if while_test (Z.of_nat (List.length location_ids)) 10 offset then
                      match local_backfill_step upstream query location_ids
                              (offset + 20) w with
                      | (Raises e, w') => (Raises e, w')
                      | (Returns location_ids', w') =>
                          local_backfill upstream query location_ids' (offset + 20) w'
                      end
                    else (Returns location_ids, w))).
  - intros query location_ids offset e w _. now rewrite e.
  - intros query location_ids offset Htest w ids' w' _ Hstep _.
    now rewrite Htest, Hstep.
  - intros query location_ids offset Htest w e w' Hstep _.
    now rewrite Htest, Hstep.
Qed.

Lemma while_test_ceiling (size min_results offset : Z) :
  40 <= offset -> while_test size min_results offset = false.
Proof.
  intros H. unfold while_test.
  replace (offset <? 40) with false by (symmetry; apply Z.ltb_ge; lia).
  apply andb_false_r.
Qed.

(** A pass through the body of the web loop sends the request for the page
    at [offset], unless it raises before; it does not touch the rate limit. *)
Lemma web_backfill_step_world data web_results offset w :
  (exists e, web_backfill_step upstream data web_results offset w = (Raises e, w))
  \/ snd (web_backfill_step upstream data web_results offset w)
     = after w [EvGet (web_request (query_param data) offset)].
Proof.
  unfold web_backfill_step, query_param, bind, lift, client_get, after.
  destruct (Py.dict_get data "query" (JStr "")) as [q|e]; cbn; [right|by left; eauto].
  destruct (upstream _ _) as [resp|e]; cbn; [|reflexivity].
  destruct (Response_json resp); reflexivity.
Qed.

(** A pass through the body of the location loop sends exactly the request
    for the page at [offset]. *)
Lemma local_backfill_step_world query location_ids offset w :
  snd (local_backfill_step upstream query location_ids offset w)
  = after w [EvGet (local_request query (Some offset))].
Proof.
  unfold local_backfill_step, bind, lift, client_get, ret, after.
  destruct (upstream _ _) as [resp|e]; cbn; [|reflexivity].
  destruct (Response_json resp) as [d|e]; cbn; [|reflexivity].
  destruct (_extract_location_ids d); reflexivity.
Qed.

Lemma web_backfill_at_ceiling data min_results web_results w :
  snd (web_backfill upstream data min_results web_results 40 w) = w.
Proof.
  rewrite web_backfill_eq. destruct (Py.len web_results); [|reflexivity].
  now rewrite while_test_ceiling.
Qed.

Lemma web_backfill_from_20 data min_results web_results w :
  exists evs,
    snd (web_backfill upstream data min_results web_results 20 w) = after w evs
    /\ evs `prefix_of` [EvGet (web_request (query_param data) 40)].
Proof.
  rewrite web_backfill_eq.
  destruct (Py.len web_results) as [size|e];
    [|exists []; split; [now rewrite after_nil | apply prefix_nil]].
  destruct (while_test size min_results 20);
    [|exists []; split; [now rewrite after_nil | apply prefix_nil]].
  change (20 + 20) with 40.
  destruct (web_backfill_step_world data web_results 40 w) as [[e ->] | Hstep].
  - exists []. split; [now rewrite after_nil | apply prefix_nil].
  - destruct (web_backfill_step upstream data web_results 40 w) as [[wr'|e] w'];
      cbn [snd] in Hstep; subst w'.
    + rewrite web_backfill_at_ceiling. eexists. split; [reflexivity | done].
    + eexists. split; [reflexivity | done].
Qed.

Lemma web_backfill_from_0 data min_results web_results w :
  exists evs,
    snd (web_backfill upstream data min_results web_results 0 w) = after w evs
    /\ evs `prefix_of` [EvGet (web_request (query_param data) 20);
                        EvGet (web_request (query_param data) 40)].
Proof.
  rewrite web_backfill_eq.
  destruct (Py.len web_results) as [size|e];
    [|exists []; split; [now rewrite after_nil | apply prefix_nil]].
  destruct (while_test size min_results 0);
    [|exists []; split; [now rewrite after_nil | apply prefix_nil]].
  change (0 + 20) with 20.
  destruct (web_backfill_step_world data web_results 20 w) as [[e ->] | Hstep].
  - exists []. split; [now rewrite after_nil | apply prefix_nil].
  - destruct (web_backfill_step upstream data web_results 20 w) as [[wr'|e] w'];
      cbn [snd] in Hstep; subst w'.
    + destruct (web_backfill_from_20 data min_results wr'
                  (after w [EvGet (web_request (query_param data) 20)]))
        as (evs & -> & Hpre).
      rewrite after_after. eexists. split; [reflexivity|].
      cbn [app]. now apply prefix_cons.
    + eexists. split; [reflexivity|]. now exists [EvGet (web_request (query_param data) 40)].
Qed.

Lemma local_backfill_at_ceiling query location_ids w :
  snd (local_backfill upstream query location_ids 40 w) = w.
Proof.
  rewrite local_backfill_eq. now rewrite while_test_ceiling.
Qed.

Lemma local_backfill_from_0 query location_ids w :
  exists evs,
    snd (local_backfill upstream query location_ids 0 w) = after w evs
    /\ evs `prefix_of` [EvGet (local_request query (Some 20));
                        EvGet (local_request query (Some 40))].
Proof.
  rewrite local_backfill_eq.
  destruct (while_test _ 10 0);
    [|exists []; split; [now rewrite after_nil | apply prefix_nil]].
  change (0 + 20) with 20.
  pose proof (local_backfill_step_world query location_ids 20 w) as Hstep.
  destruct (local_backfill_step upstream query location_ids 20 w) as [[ids'|e] w'];
    cbn [snd] in Hstep; subst w'.
  - rewrite local_backfill_eq.
    destruct (while_test _ 10 20);
      [|eexists; split; [reflexivity|];
        now exists [EvGet (local_request query (Some 40))]].
    change (20 + 20) with 40.
    pose proof (local_backfill_step_world query ids' 40
                  (after w [EvGet (local_request query (Some 20))])) as Hstep.
    destruct (local_backfill_step upstream query ids' 40 _) as [[ids''|e] w''];
      cbn [snd] in Hstep; subst w''.
    + rewrite local_backfill_at_ceiling, after_after.
      eexists. split; [reflexivity | done].
    + cbn [snd]. rewrite after_after. eexists. split; [reflexivity | done].
  - eexists. split; [reflexivity|].
    now exists [EvGet (local_request query (Some 40))].
Qed.

Lemma format_web_results_world data min_results w :
  exists evs,
    snd (_format_web_results upstream data min_results w) = after w evs
    /\ evs `prefix_of` [EvGet (web_request (query_param data) 20);
                        EvGet (web_request (query_param data) 40)].
Proof.
  unfold _format_web_results, bind, lift, ret.
  destruct (results_of "web" data) as [wr|e]; cbn;
    [|exists []; split; [now rewrite after_nil | apply prefix_nil]].
  destruct (Py.len wr) as [size|e]; cbn;
    [|exists []; split; [now rewrite after_nil | apply prefix_nil]].
  destruct (size <? min_results).
  - destruct (web_backfill_from_0 data min_results wr w) as (evs & Hw & Hpre).
    exists evs. split; [|exact Hpre].
    destruct (web_backfill upstream data min_results wr 0 w) as [[wr'|e] w'];
      cbn [snd] in Hw; subst w'; [|reflexivity].
    destruct (Py.len wr'); cbn; [|reflexivity].
    destruct (sliced wr' _); reflexivity.
  - exists []. rewrite after_nil. split; [|apply prefix_nil].
    destruct (Py.len wr); cbn; [|reflexivity].
    destruct (sliced wr _); reflexivity.
Qed.

(** C10. Both backfill loops end after at most two more page requests, for
    every payload, every state and every upstream: the run of the web loop
    (and of [_format_web_results], which holds it) and the run of the
    location loop leave a world that differs from the one they started in
    by an initial part of the two requests at offset 20 and at offset 40. *)
Theorem backfill_loops_bounded :
  forall (data : json) (min_results : Z) (web_results : json)
         (query : string) (location_ids : list json) (w : World),
    (exists evs,
        snd (web_backfill upstream data min_results web_results 0 w) = after w evs
        /\ evs `prefix_of` [EvGet (web_request (query_param data) 20);
                            EvGet (web_request (query_param data) 40)])
    /\ (exists evs,
          snd (_format_web_results upstream data min_results w) = after w evs
          /\ evs `prefix_of` [EvGet (web_request (query_param data) 20);
                              EvGet (web_request (query_param data) 40)])
    /\ (exists evs,
          snd (local_backfill upstream query location_ids 0 w) = after w evs
          /\ evs `prefix_of` [EvGet (local_request query (Some 20));
                              EvGet (local_request query (Some 40))]).
Proof.
  intros data min_results web_results query location_ids w.
  split; [apply web_backfill_from_0|].
  split; [apply format_web_results_world | apply local_backfill_from_0].
Qed.

Lemma web_backfill_step_serves data q page items offset w :
  Py.dict_get data "query" (JStr "") = Returns q ->
  serves_pages upstream q page ->
  web_backfill_step upstream data (JList items) offset w
  = (Returns (JList (items ++ page offset)%list),
     after w [EvGet (web_request q offset)]).
Proof.
  intros Hq Hserve.
  destruct (Hserve (List.length (trace w)) offset) as (resp & d & H1 & H2 & H3).
  unfold web_backfill_step, bind, lift, client_get. rewrite Hq. cbn.
  rewrite H1, H2, H3. reflexivity.
Qed.

Lemma while_test_below (size min_results offset : Z) :
  offset < 40 -> while_test size min_results offset = negb (min_results <=? size).
Proof.
  intros H. unfold while_test.
  replace (offset <? 40) with true by (symmetry; apply Z.ltb_lt; lia).
  rewrite andb_true_r, Z.leb_antisym. now rewrite negb_involutive.
Qed.

(** C4, as amended. With an upstream that serves pages, the web loop adds
    no page when the first page already reaches the floor, the page at
    offset 20 when that reaches it, and the pages at offsets 20 and 40
    otherwise, and it returns what it has gathered whether or not the
    floor is met.  With three results on every page and a floor of 10, the
    awaited web search sends three page requests in all (offsets 0, 20 and
    40) and returns nine entries. *)
Theorem backfill_stops_at_floor_or_ceiling :
  (forall (data q : json) (page : Z -> list json) (min_results : Z)
          (first_page : list json) (w : World),
      Py.dict_get data "query" (JStr "") = Returns q ->
      serves_pages upstream q page ->
      web_backfill upstream data min_results (JList first_page) 0 w
      = if min_results <=? size_of first_page then
          (Returns (JList first_page), w)
        else if min_results <=? size_of (first_page ++ page 20)%list then
          (Returns (JList (first_page ++ page 20)%list),
           after w [EvGet (web_request q 20)])
        else
          (Returns (JList ((first_page ++ page 20) ++ page 40)%list),
           after w [EvGet (web_request q 20); EvGet (web_request q 40)]))
  /\ (List.length (fetches_of (web_search_awaited half_second three_per_page "acme" 20 0)
                              started) = 3%nat
      /\ exists entries,
          fst (web_search_awaited half_second three_per_page "acme" 20 0 started)
          = Returns entries
          /\ List.length entries = 9%nat).
Proof.
  split.
  - intros data q page min_results first_page w Hq Hserve.
    rewrite web_backfill_eq. cbn [Py.len]. fold (size_of first_page).
    rewrite while_test_below by lia.
    destruct (min_results <=? size_of first_page); cbn [negb]; [reflexivity|].
    change (0 + 20) with 20.
    rewrite (web_backfill_step_serves _ _ _ _ _ _ Hq Hserve).
    rewrite web_backfill_eq. cbn [Py.len]. fold (size_of (first_page ++ page 20)%list).
    rewrite while_test_below by lia.
    destruct (min_results <=? size_of (first_page ++ page 20)%list); cbn [negb];
      [reflexivity|].
    change (20 + 20) with 40.
    rewrite (web_backfill_step_serves _ _ _ _ _ _ Hq Hserve).
    rewrite web_backfill_eq. cbn [Py.len].
    rewrite while_test_ceiling by lia. now rewrite after_after.
  - split; [vm_compute; reflexivity|].
    eexists. split; vm_compute; reflexivity.
Qed.

End ServerFacts.

Lemma backfill_stops_at_floor_or_ceiling_witness :
  BraveSearchServer.web_backfill three_per_page three_results 10 (JList abc) 0 started
  = (Returns (JList ((abc ++ abc) ++ abc)%list),
     BraveSearchServer.after started [EvGet (BraveSearchServer.web_request (JStr "acme") 20);
                    EvGet (BraveSearchServer.web_request (JStr "acme") 40)]).
Proof.
  apply (proj1 (backfill_stops_at_floor_or_ceiling three_per_page)
           three_results (JStr "acme") (fun _ => abc) 10 abc started).
  - reflexivity.
  - intros n offset. eexists. eexists. repeat split; reflexivity.
Defined.

(** C4, as stated: with three results on every page, the awaited web
    search does not send four page requests, and does not return ten
    entries. *)
Lemma four_fetches_refuted :
  ~ (List.length (BraveSearchServer.fetches_of
                    (BraveSearchServer.web_search_awaited half_second three_per_page
                       "acme" 20 0) started) = 4%nat
     /\ exists entries,
         fst (BraveSearchServer.web_search_awaited half_second three_per_page
                "acme" 20 0 started) = Returns entries
         /\ (10 <= List.length entries)%nat).
Proof.
  intros [Hfour _]. vm_compute in Hfour. discriminate.
Qed.

(** ** Admission and the page requests *)

(** C3, on a location search whose pages carry one identifier each and on a
    web search whose pages carry three results each: the only call of
    [check] is the one at the start of the tool; the requests for the pages
    at offsets 20 and 40 follow with no call of [check] before them, and
    the counters stand at one request after the run. *)
Theorem backfill_requests_skip_check :
  (BraveSearchServer.events_of
     (BraveSearchServer.brave_local_search half_second local_upstream no_str "cafe" 20)
     started
   = [EvCheck (1 # 2);
      EvGet (BraveSearchServer.local_request "cafe" None);
      EvGet (BraveSearchServer.local_request "cafe" (Some 20));
      EvGet (BraveSearchServer.local_request "cafe" (Some 40));
      EvGet (BraveSearchServer.details_request "/local/pois"
               [JStr "loc1"; JStr "loc1"; JStr "loc1"]);
      EvGet (BraveSearchServer.details_request "/local/descriptions"
               [JStr "loc1"; JStr "loc1"; JStr "loc1"])]
   /\ RateLimit.has_counters
        (rate_limit (snd (BraveSearchServer.brave_local_search half_second
                            local_upstream no_str "cafe" 20 started))) 1 1)
  /\ (BraveSearchServer.events_of
        (BraveSearchServer.web_search_awaited half_second three_per_page "acme" 20 0)
        started
      = [EvCheck (1 # 2);
         EvGet (BraveSearchServer.web_request (JStr "acme") 0);
         EvGet (BraveSearchServer.web_request (JStr "acme") 20);
         EvGet (BraveSearchServer.web_request (JStr "acme") 40)]
      /\ RateLimit.has_counters
           (rate_limit (snd (BraveSearchServer.web_search_awaited half_second
                               three_per_page "acme" 20 0 started))) 1 1).
Proof.
  repeat split; vm_compute; reflexivity.
Qed.

(** ** The fallback of the location search *)

Section FallbackFacts.
Import BraveSearchServer.
Variable clock : nat -> Q.
Variable upstream : nat -> Request -> outcome Response.

(** What [brave_web_search] returns is never a text of locations. *)
Lemma brave_web_search_value query count offset w (locations : list location) :
  fst (brave_web_search clock upstream query count offset w)
  <> Returns (LocalText locations).
Proof.
  unfold brave_web_search, bind, lift, ret, client_get.
  destruct (rate_limit_check clock w) as [[[]|e] w1]; cbn; [|discriminate].
  destruct (upstream _ _) as [resp|e]; cbn; [|discriminate].
  destruct (raise_for_status resp) as [[]|e]; cbn; [|discriminate].
  destruct (Response_json resp); cbn; discriminate.
Qed.

End FallbackFacts.

(** C5, on a location search whose first page carries no identifier, on a
    server just started.  With a clock that stays within the short window,
    the call of [check] made by the web search that stands in raises
    [RateLimitError] and no second request is sent.  With two seconds
    between one event and the next, the location search returns the
    coroutine object that [brave_web_search] hands back without awaiting
    it, after the first page of the web search only.  Neither run returns
    the results of a web search. *)
Theorem fallback_returns_no_results :
  (fst (BraveSearchServer.brave_local_search half_second three_per_page no_str
          "acme" 20 started)
   = Raises RateLimitError
   /\ BraveSearchServer.events_of
        (BraveSearchServer.brave_local_search half_second three_per_page no_str
           "acme" 20) started
      = [EvCheck (1 # 2);
         EvGet (BraveSearchServer.local_request "acme" None);
         EvCheck (1 # 2)])
  /\ (fst (BraveSearchServer.brave_local_search two_seconds_apart three_per_page
             no_str "acme" 20 started)
      = Returns (WebCoroutine three_results 10)
      /\ BraveSearchServer.events_of
           (BraveSearchServer.brave_local_search two_seconds_apart three_per_page
              no_str "acme" 20) started
         = [EvCheck (2 # 1);
            EvGet (BraveSearchServer.local_request "acme" None);
            EvCheck (6 # 1);
            EvGet (BraveSearchServer.web_request (JStr "acme") 0)]).
Proof.
  repeat split; vm_compute; reflexivity.
Qed.

(** ** The detail requests and the formatting of locations *)

Section DetailFacts.
Import BraveSearchServer.
Variable upstream : nat -> Request -> outcome Response.
Variable py_str : json -> string.

(** A request that got no response makes [_get_location_details] raise. *)
Lemma details_transport_error ids w e :
  upstream (List.length (trace w)) (details_request "/local/pois" ids) = Raises e
  \/ upstream (S (List.length (trace w))) (details_request "/local/descriptions" ids)
     = Raises e ->
  exists e', fst (_get_location_details upstream ids w) = Raises e'.
Proof.
  intros H. unfold _get_location_details, bind, lift, ret, client_send. cbn.
  rewrite length_app, Nat.add_comm. cbn [List.length Nat.add].
  destruct H as [-> | ->]; [eauto|].
  destruct (upstream _ _); cbn; eauto.
Qed.

(** A PoI with an identifier that has no description gets the default. *)
Lemma description_default descs poi k :
  Py.getitem poi "id" = Returns (JStr k) ->
  Py.assoc k descs = None ->
  description_of (JDict [("descriptions", JDict descs)]) poi
  = Returns (JStr "No description available").
Proof.
  intros Hid Hk. unfold description_of. cbn. rewrite Hid. cbn. now rewrite Hk.
Qed.

(** A location entry that is a dict without ["id"] is skipped. *)
Lemma ids_of_skips kvs rest :
  Py.assoc "id" kvs = None -> ids_of (JDict kvs :: rest) = ids_of rest.
Proof. intros H. cbn. now rewrite H. Qed.

Lemma ids_of_keeps kvs id rest :
  Py.assoc "id" kvs = Some id ->
  ids_of (JDict kvs :: rest) = (ids <-? ids_of rest ;; Returns (id :: ids)).
Proof. intros H. cbn. now rewrite H. Qed.

End DetailFacts.

(** C6, at a PoI request that the upstream rejects with status 429 and a
    JSON error body, the description request being served:
    [raise_for_status] would raise on that response, yet
    [_get_location_details] returns the error body and the descriptions,
    and the location search returns the text of an empty list. *)
Theorem details_ignore_status :
  raise_for_status {| status_code := 429; content := Some error_payload |}
  = Raises HTTPStatusError
  /\ fst (BraveSearchServer._get_location_details pois_rejected [JStr "loc1"] started)
     = Returns (error_payload, description_payload)
  /\ fst (BraveSearchServer.brave_local_search half_second pois_rejected no_str
            "cafe" 20 started)
     = Returns (LocalText []).
Proof.
  repeat split; vm_compute; reflexivity.
Qed.

(** C9, at a PoI payload whose entry has no ["id"]: the formatting raises
    [KeyError] instead of leaving the entry out. *)
Theorem poi_without_id_raises :
  BraveSearchServer._format_local_results no_str poi_without_id description_payload
  = Raises KeyError.
Proof. vm_compute. reflexivity. Qed.

(** ** The homepage resolver *)

Section ResolverFacts.
Import FindHomepages.
Import HomepageResolver.
Variable hostname : json -> outcome (option string).
Variable httpx_get : Request -> outcome Response.

Lemma first_pass_find company items cs :
  Forall2 (candidate_of hostname) items cs ->
  first_pass hostname company items
  = Returns (chosen (List.find (first_pass_accepts company) cs)).
Proof.
  induction 1 as [|item c items cs [Hurl Hhost] _ IH]; [reflexivity|].
  cbn [first_pass List.find]. rewrite Hurl. cbn [Py.obind].
  unfold is_official_candidate. rewrite Hhost. cbn [Py.obind or_empty].
  unfold first_pass_accepts at 1, substring_denied, name_match.
  destruct (existsb _ BLACKLIST); cbn [negb andb Py.obind]; [exact IH|].
  destruct (Py.str_in _ _); [reflexivity | exact IH].
Qed.

Lemma second_pass_find items cs :
  Forall2 (candidate_of hostname) items cs ->
  second_pass hostname items
  = Returns (chosen (List.find second_pass_accepts cs)).
Proof.
  induction 1 as [|item c items cs [Hurl Hhost] _ IH]; [reflexivity|].
  cbn [second_pass List.find]. rewrite Hurl. cbn [Py.obind].
  unfold not_in_BLACKLIST. rewrite Hhost. cbn [Py.obind].
  unfold second_pass_accepts at 1.
  destruct (existsb _ BLACKLIST); cbn [negb]; [exact IH | reflexivity].
Qed.

Lemma prefix_refl (s : string) : String.prefix s s = true.
Proof.
  induction s as [|c s IH]; [reflexivity|]. cbn.
  destruct (Ascii.ascii_dec c c); [exact IH | congruence].
Qed.

Lemma str_in_refl (s : string) : Py.str_in s s = true.
Proof.
  destruct s as [|c s]; [reflexivity|].
  cbn [Py.str_in]. now rewrite prefix_refl.
Qed.

Lemma in_BLACKLIST_denied (h : string) :
  existsb (String.eqb h) BLACKLIST = true -> substring_denied h = true.
Proof.
  unfold substring_denied. rewrite !existsb_exists.
  intros (d & Hin & Heq). apply String.eqb_eq in Heq. subst d.
  exists h. split; [exact Hin | apply str_in_refl].
Qed.

(** The value a strategy yields counts as a candidate when it is true in
    Python's sense: [None] and the empty string do not. *)
Lemma resolve_cases (name : string) :
  resolve hostname httpx_get name
  = if Py.truthy (get_brave_homepage hostname httpx_get name 10)
    then get_brave_homepage hostname httpx_get name 10
    else if Py.truthy (get_wikidata_homepage httpx_get name)
         then get_wikidata_homepage httpx_get name
         else JStr "Not found".
Proof.
  unfold resolve. destruct (Py.truthy (get_brave_homepage _ _ _ _)) eqn:E; cbn.
  - now rewrite E.
  - reflexivity.
Qed.


End ResolverFacts.

(** The first pass denies by substring: on two results whose first host
    has "wikipedia.org" inside it without ending in it, the scan of the
    specification accepts the first result and the code returns the
    second. *)
Lemma deny_matching_differs :
  Forall2 (candidate_of host_table) decoy_results decoy_candidates
  /\ ~ same_choice (FindHomepages.scan host_table "Acme" (JList decoy_results))
                   (HomepageResolver.search_strategy "Acme" decoy_candidates).
Proof.
  split.
  - repeat constructor.
  - vm_compute. discriminate.
Qed.

(** C7, at a single search result on a sub-domain of a denied domain.
    The first pass rejects it as blacklisted; the second pass returns it
    all the same, because it tests the host for equality with a deny-set
    entry only; the scan of the specification, which denies by exact or
    suffix match in both passes, accepts no candidate.  The resolver then
    reports the Wikipedia page as the homepage and does not consult the
    knowledge base. *)
Theorem second_pass_returns_denied_subdomain :
  FindHomepages.is_official_candidate host_table
    (JStr "https://en.wikipedia.org/wiki/Acme") "Acme" = Returns false
  /\ FindHomepages.not_in_BLACKLIST host_table
       (JStr "https://en.wikipedia.org/wiki/Acme") = Returns true
  /\ FindHomepages.scan host_table "Acme"
       (JList [result_with_url "https://en.wikipedia.org/wiki/Acme"])
     = Returns (JStr "https://en.wikipedia.org/wiki/Acme")
  /\ Forall2 (candidate_of host_table)
       [result_with_url "https://en.wikipedia.org/wiki/Acme"]
       [ {| HomepageResolver.url := "https://en.wikipedia.org/wiki/Acme";
            HomepageResolver.host := "en.wikipedia.org" |} ]
  /\ HomepageResolver.search_strategy "Acme"
       [ {| HomepageResolver.url := "https://en.wikipedia.org/wiki/Acme";
            HomepageResolver.host := "en.wikipedia.org" |} ]
     = None
  /\ FindHomepages.resolve host_table wikipedia_only "Acme"
     = JStr "https://en.wikipedia.org/wiki/Acme".
Proof.
  repeat split; try reflexivity. repeat constructor.
Qed.


(** * Further properties *)

(** ** RateLimit: invariants of the counters *)

Section RateLimitInvariants.
Import RateLimit.

Lemma admit_or_raise_last_reset (self : t) :
  _last_reset (snd (admit_or_raise self)) = _last_reset self.
Proof.
  unfold admit_or_raise, incr.
  destruct (_requests self !! "second") as [s|]; [|reflexivity].
  destruct (per_second self <=? s); [reflexivity|].
  destruct (_requests self !! "month") as [m|]; [|reflexivity].
  destruct (per_month self <=? m); [reflexivity|]. cbn.
  destruct (_ !! "month"); reflexivity.
Qed.

Lemma window_reset_last_reset (self : t) (now : Q) :
  (_last_reset self <= _last_reset (window_reset self now))%Q.
Proof.
  unfold window_reset. destruct (Qgt_bool _ 1) eqn:E; [|apply Qle_refl].
  cbn. apply Qgt_bool_true in E. apply Qlt_le_weak.
  apply Qlt_minus_iff. apply Qlt_trans with (y := 1%Q); [reflexivity | exact E].
Qed.

Lemma within_limits_check (self : t) (now : Q) :
  within_limits self -> within_limits (snd (check self now)).
Proof.
  intros (s & m & Hc & Hs & Hm).
  assert (Hr : exists s', has_counters (window_reset self now) s' m
                          /\ 0 <= s' <= per_second self).
  { unfold window_reset. destruct (Qgt_bool _ 1).
    - exists 0. destruct Hc as [H1 H2]. repeat split; cbn; try lia.
      + by rewrite lookup_insert_eq.
      + by rewrite lookup_insert_ne.
    - exists s. auto. }
  destruct Hr as (s' & Hc' & Hs').
  destruct (window_reset_limits self now) as [Hps Hpm].
  rewrite (check_verdict _ _ _ _ Hc').
  destruct (per_second self <=? s') eqn:E1; cbn [orb snd].
  - exists s', m. rewrite Hps, Hpm. auto.
  - destruct (per_month self <=? m) eqn:E2; cbn [snd].
    + exists s', m. rewrite Hps, Hpm. auto.
    + apply Z.leb_gt in E1, E2. exists (s' + 1), (m + 1).
      split; [apply admitted_counters|]. cbn [admitted per_second per_month].
      rewrite Hps, Hpm. lia.
Qed.

Lemma within_limits_run (times : list Q) :
  forall self, within_limits self -> within_limits (snd (run_checks self times)).
Proof.
  induction times as [|now rest IH]; intros self H; [exact H|].
  cbn [run_checks].
  pose proof (within_limits_check self now H) as H1.
  destruct (check self now) as [o self1]. cbn [snd] in H1.
  specialize (IH self1 H1).
  destruct (run_checks self1 rest) as [os self2]. exact IH.
Qed.

(** X1. Whatever the clock readings, the counters of an object created
    with limits that are not negative stay between 0 and their limits. *)
Theorem counters_within_limits (limit_s limit_m : Z) (created : Q) (times : list Q) :
  0 <= limit_s ->
  0 <= limit_m ->
  within_limits (snd (run_checks (__post_init__ limit_s limit_m created) times)).
Proof.
  intros Hs Hm. apply within_limits_run.
  exists 0, 0. repeat split; cbn; try done.
Qed.

Lemma counters_within_limits_witness :
  within_limits (snd (run_checks (__post_init__ 1 2000 0) [1 # 2; 3 # 4; 5 # 2])).
Proof. apply counters_within_limits; lia. Defined.

Lemma check_outcome (self : t) (now : Q) :
  counting self -> let_through_or_refused (fst (check self now)).
Proof.
  intros (s & m & Hc & _).
  destruct (window_reset_counters self now s m Hc) as (s' & Hc' & _).
  rewrite (check_verdict _ _ _ _ Hc').
  destruct (_ || _); [right | left]; reflexivity.
Qed.

Lemma run_outcomes (times : list Q) :
  forall self,
    counting self -> Forall let_through_or_refused (fst (run_checks self times)).
Proof.
  induction times as [|now rest IH]; intros self H; [constructor|].
  cbn [run_checks].
  pose proof (check_outcome self now H) as Ho.
  destruct (counting_check self now H) as (H1 & _).
  destruct (check self now) as [o self1]. cbn [fst snd] in *.
  specialize (IH self1 H1).
  destruct (run_checks self1 rest) as [os self2]. cbn [fst] in *.
  constructor; assumption.
Qed.

(** X2. On an object made by the constructor, [check] only ever returns or
    raises [RateLimitError]: the two keys it reads are always present. *)
Theorem check_raises_only_rate_limit (limit_s limit_m : Z) (created : Q)
    (times : list Q) :
  Forall let_through_or_refused
    (fst (run_checks (__post_init__ limit_s limit_m created) times)).
Proof. apply run_outcomes, counting_init. Qed.

(** X3. The long counter counts the calls that were let through since the
    object was created, across all resets of the short window, and that
    number never exceeds [per_month]. *)
Theorem month_counts_admissions (limit_s limit_m : Z) (created : Q) (times : list Q) :
  0 <= limit_m ->
  (exists s,
      has_counters (snd (run_checks (__post_init__ limit_s limit_m created) times)) s
        (successes (fst (run_checks (__post_init__ limit_s limit_m created) times))))
  /\ successes (fst (run_checks (__post_init__ limit_s limit_m created) times))
     <= limit_m.
Proof.
  intros Hm.
  destruct (run_checks_counts times (__post_init__ limit_s limit_m created) 0 0)
    as [H1 H2]; [by split | exact Hm |].
  rewrite Z.add_0_l in H1, H2. split; assumption.
Qed.

Lemma month_counts_admissions_witness :
  successes (fst (run_checks (__post_init__ 1 2 0) [1 # 2; 2 # 1; 4 # 1; 6 # 1])) <= 2.
Proof. apply (month_counts_admissions 1 2 0). lia. Defined.

(** X4. Once the long counter has reached [per_month], every later call
    raises [RateLimitError], whatever the clock reads and whatever the
    short counter holds, and the long counter stays where it is: only a
    new object counts again. *)
Theorem exhausted_month_rejects_all (times : list Q) :
  forall (self : t) (s m : Z),
    has_counters self s m ->
    per_month self <= m ->
    Forall (fun o => o = Raises RateLimitError) (fst (run_checks self times))
    /\ exists s', has_counters (snd (run_checks self times)) s' m.
Proof.
  induction times as [|now rest IH]; intros self s m Hc Hm.
  - split; [constructor | eauto].
  - cbn [run_checks].
    destruct (window_reset_counters self now s m Hc) as (s' & Hc' & Hpm).
    rewrite (check_verdict _ _ _ _ Hc').
    replace (per_month self <=? m) with true by (symmetry; apply Z.leb_le; lia).
    rewrite orb_true_r.
    destruct (IH (window_reset self now) s' m Hc') as [H1 H2]; [by rewrite Hpm|].
    destruct (run_checks (window_reset self now) rest) as [os self2].
    cbn [fst snd] in *. split; [constructor; [reflexivity | exact H1] | exact H2].
Qed.

Lemma exhausted_month_rejects_all_witness :
  Forall (fun o => o = Raises RateLimitError)
    (fst (run_checks (snd (check (__post_init__ 5 1 0) (1 # 2))) [3 # 4; 10 # 1])).
Proof.
  apply (proj1 (exhausted_month_rejects_all [3 # 4; 10 # 1]
                  (snd (check (__post_init__ 5 1 0) (1 # 2))) 1 1
                  ltac:(split; reflexivity) ltac:(vm_compute; discriminate))).
Defined.

(** X5. While the short window is full, every call whose clock reading is
    not more than one second past the window start - a reading before the
    window start included - raises [RateLimitError] and leaves the object
    exactly as it was. *)
Theorem full_window_rejects (times : list Q) :
  forall (self : t) (s m : Z),
    has_counters self s m ->
    per_second self <= s ->
    Forall (fun now => (now - _last_reset self <= 1)%Q) times ->
    run_checks self times
    = (repeat (Raises RateLimitError) (List.length times), self).
Proof.
  induction times as [|now rest IH]; intros self s m Hc Hs Hin; [reflexivity|].
  inversion Hin as [|? ? Hnow Hrest]; subst.
  cbn [run_checks]. unfold check.
  rewrite (window_reset_within _ _ Hnow), (admit_or_raise_spec _ _ _ Hc).
  replace (per_second self <=? s) with true by (symmetry; apply Z.leb_le; lia).
  cbn [orb]. rewrite (IH self s m Hc Hs Hrest). reflexivity.
Qed.

Lemma full_window_rejects_witness :
  run_checks (snd (check fresh_limit (1 # 2))) [3 # 4; (-5) # 1; 1 # 1]
  = (repeat (Raises RateLimitError) 3, snd (check fresh_limit (1 # 2))).
Proof.
  apply (full_window_rejects [3 # 4; (-5) # 1; 1 # 1]
           (snd (check fresh_limit (1 # 2))) 1 1).
  - split; reflexivity.
  - vm_compute. discriminate.
  - repeat constructor; vm_compute; discriminate.
Defined.

(** X6. A call made more than one second after the window start is let
    through exactly when [per_second] is positive and the long counter is
    below [per_month]: the short count before the call plays no role. *)
Theorem reset_reopens (self : t) (s m : Z) (now : Q) :
  has_counters self s m ->
  (1 < now - _last_reset self)%Q ->
  fst (check self now) = Returns tt
  <-> 0 < per_second self /\ m < per_month self.
Proof.
  intros Hc Hlt.
  destruct (window_reset_elapsed self now s m Hc Hlt) as (Hc' & _).
  rewrite (check_verdict _ _ _ _ Hc').
  destruct (per_second self <=? 0) eqn:E1; cbn [orb].
  - apply Z.leb_le in E1. split; [discriminate | intros [? ?]; lia].
  - apply Z.leb_gt in E1.
    destruct (per_month self <=? m) eqn:E2.
    + apply Z.leb_le in E2. split; [discriminate | intros [? ?]; lia].
    + apply Z.leb_gt in E2. split; [intros _; lia | reflexivity].
Qed.

Lemma reset_reopens_witness :
  fst (check (snd (check fresh_limit (1 # 2))) (3 # 2)) = Returns tt.
Proof.
  apply (reset_reopens (snd (check fresh_limit (1 # 2))) 1 1 (3 # 2)).
  - split; reflexivity.
  - reflexivity.
  - vm_compute. split; reflexivity.
Defined.

Lemma check_last_reset (self : t) (now : Q) :
  (_last_reset self <= _last_reset (snd (check self now)))%Q.
Proof.
  unfold check. rewrite admit_or_raise_last_reset. apply window_reset_last_reset.
Qed.

(** X7. The start of the short window never moves back, whatever the
    clock reads from one call to the next. *)
Theorem window_start_never_moves_back (times : list Q) :
  forall self : t,
    (_last_reset self <= _last_reset (snd (run_checks self times)))%Q.
Proof.
  induction times as [|now rest IH]; intros self; [apply Qle_refl|].
  cbn [run_checks].
  pose proof (check_last_reset self now) as H1.
  destruct (check self now) as [o self1]. cbn [snd] in H1.
  specialize (IH self1).
  destruct (run_checks self1 rest) as [os self2]. cbn [snd] in *.
  eapply Qle_trans; eassumption.
Qed.

End RateLimitInvariants.

(** ** The tools: what is sent, and when a run stops *)

Section ToolFacts.
Import BraveSearchServer.
Variable clock : nat -> Q.
Variable upstream : nat -> Request -> outcome Response.
Variable py_str : json -> string.

Lemma events_of_app {A} (c : M A) (w : World) (evs : list event) :
  trace (snd (c w)) = (trace w ++ evs)%list -> events_of c w = evs.
Proof. intros H. unfold events_of. rewrite H. apply drop_app_length. Qed.

(** The world after the call of [check] at the start of a tool. *)
Lemma rate_limit_check_world (w : World) :
  snd (rate_limit_check clock w)
  = {| rate_limit := snd (RateLimit.check (rate_limit w) (clock (List.length (trace w))));
       trace := (trace w ++ [EvCheck (clock (List.length (trace w)))])%list |}
  /\ fst (rate_limit_check clock w)
     = fst (RateLimit.check (rate_limit w) (clock (List.length (trace w)))).
Proof.
  unfold rate_limit_check. destruct (RateLimit.check _ _). split; reflexivity.
Qed.

Lemma web_search_refused (query : string) (count offset : Z) (w : World) (e : exn) :
  fst (rate_limit_check clock w) = Raises e ->
  fst (brave_web_search clock upstream query count offset w) = Raises e.
Proof.
  intros He. unfold brave_web_search. unfold bind at 1.
  destruct (rate_limit_check clock w) as [o w1]. cbn [fst] in *. now subst.
Qed.

(** X8. When the call of [check] raises, both tools raise the same
    exception and no request is sent to the upstream. *)
Theorem refused_call_sends_no_request (query : string) (count offset : Z)
    (w : World) (e : exn) :
  fst (rate_limit_check clock w) = Raises e ->
  (fst (brave_web_search clock upstream query count offset w) = Raises e
   /\ events_of (brave_web_search clock upstream query count offset) w
      = [EvCheck (clock (List.length (trace w)))])
  /\ (fst (brave_local_search clock upstream py_str query count w) = Raises e
      /\ events_of (brave_local_search clock upstream py_str query count) w
         = [EvCheck (clock (List.length (trace w)))]).
Proof.
  intros He. destruct (rate_limit_check_world w) as [Hw _].
  unfold brave_web_search, brave_local_search.
  split; (split; [|apply events_of_app]); unfold bind at 1;
    destruct (rate_limit_check clock w) as [o w1]; cbn [fst snd] in *; subst;
    reflexivity.
Qed.

Lemma raise_for_status_not_2xx (resp : Response) :
  status_code resp < 200 \/ 300 <= status_code resp ->
  raise_for_status resp = Raises HTTPStatusError.
Proof.
  intros H. unfold raise_for_status.
  destruct (200 <=? status_code resp) eqn:E1; [|reflexivity].
  destruct (status_code resp <? 300) eqn:E2; [|reflexivity].
  apply Z.leb_le in E1. apply Z.ltb_lt in E2. lia.
Qed.

(** X9. When the call of [check] passes and the first request is answered
    with a status outside 200-299, both tools raise [HTTPStatusError]
    after that single request: the body is not read and nothing else is
    sent. *)
Theorem status_error_aborts (query : string) (count offset : Z) (w : World)
    (web_resp local_resp : Response) :
  fst (rate_limit_check clock w) = Returns tt ->
  (upstream (S (List.length (trace w))) (web_request (JStr query) (Z.min offset 9))
     = Returns web_resp ->
   status_code web_resp < 200 \/ 300 <= status_code web_resp ->
   fst (brave_web_search clock upstream query count offset w) = Raises HTTPStatusError
   /\ events_of (brave_web_search clock upstream query count offset) w
      = [EvCheck (clock (List.length (trace w)));
         EvGet (web_request (JStr query) (Z.min offset 9))])
  /\ (upstream (S (List.length (trace w))) (local_request query None)
        = Returns local_resp ->
      status_code local_resp < 200 \/ 300 <= status_code local_resp ->
      fst (brave_local_search clock upstream py_str query count w)
        = Raises HTTPStatusError
      /\ events_of (brave_local_search clock upstream py_str query count) w
         = [EvCheck (clock (List.length (trace w)));
            EvGet (local_request query None)]).
Proof.
  intros Hok. destruct (rate_limit_check_world w) as [Hw _].
  split; intros Hget Hst; apply raise_for_status_not_2xx in Hst;
    unfold brave_web_search, brave_local_search;
    (split; [|apply events_of_app]); unfold bind at 1;
    destruct (rate_limit_check clock w) as [o w1]; cbn [fst snd] in *; subst;
    unfold bind, lift, client_get; cbn [trace rate_limit];
    rewrite length_app, Nat.add_comm; cbn [List.length Nat.add];
    rewrite Hget, Hst; cbn [snd trace]; try reflexivity;
    now rewrite <- app_assoc.
Qed.

(** The equation of the fallback: the location search that finds no
    identifier is the web search made in the world after its first
    request. *)
Lemma fallback_eq (query : string) (count : Z) (w : World)
    (resp : Response) (data : json) :
  fst (rate_limit_check clock w) = Returns tt ->
  upstream (S (List.length (trace w))) (local_request query None) = Returns resp ->
  raise_for_status resp = Returns tt ->
  Response_json resp = Returns data ->
  _extract_location_ids data = Returns [] ->
  brave_local_search clock upstream py_str query count w
  = brave_web_search clock upstream query 20 0
      (after (snd (rate_limit_check clock w)) [EvGet (local_request query None)]).
Proof.
  intros Hcheck Hget Hstatus Hjson Hids.
  unfold brave_local_search at 1. unfold bind at 1.
  destruct (rate_limit_check_world w) as [Hw _].
  destruct (rate_limit_check clock w) as [o w1]. cbn [fst snd] in *. subst o w1.
  unfold bind, lift, client_get, after. cbn [trace rate_limit].
  rewrite length_app, Nat.add_comm. cbn [List.length Nat.add].
  rewrite Hget, Hstatus, Hjson, Hids. reflexivity.
Qed.

Lemma check_passed_counters (self : RateLimit.t) (now : Q) :
  RateLimit.counting self ->
  fst (RateLimit.check self now) = Returns tt ->
  exists s m,
    RateLimit.has_counters (snd (RateLimit.check self now)) s m
    /\ 1 <= s
    /\ RateLimit.per_second (snd (RateLimit.check self now))
       = RateLimit.per_second self
    /\ RateLimit._last_reset (snd (RateLimit.check self now))
       = RateLimit._last_reset (RateLimit.window_reset self now).
Proof.
  intros (s & m & Hc & Hs & Hm) Hok.
  assert (Hr : exists s', RateLimit.has_counters (RateLimit.window_reset self now) s' m
                          /\ 0 <= s').
  { unfold RateLimit.window_reset. destruct (RateLimit.Qgt_bool _ 1).
    - exists 0. destruct Hc as [H1 H2]. repeat split; cbn; try lia.
      + by rewrite lookup_insert_eq.
      + by rewrite lookup_insert_ne.
    - exists s. auto. }
  destruct Hr as (s' & Hc' & Hs').
  rewrite (check_verdict _ _ _ _ Hc') in *.
  destruct (_ || _); [discriminate|]. cbn [snd].
  exists (s' + 1), (m + 1). split; [apply admitted_counters|].
  split; [lia|]. split; [apply window_reset_limits | reflexivity].
Qed.

(** X10. With the server's limit of one request per second, the fallback
    of the location search is refused whenever the second reading of the
    clock is not more than one second past the window start: the call of
    [check] made by the location search itself has used the only slot, so
    the web search that stands in raises [RateLimitError]. *)
Theorem fallback_refused_within_window (query : string) (count : Z) (w : World)
    (resp : Response) (data : json) :
  RateLimit.counting (rate_limit w) ->
  RateLimit.per_second (rate_limit w) = 1 ->
  fst (rate_limit_check clock w) = Returns tt ->
  upstream (S (List.length (trace w))) (local_request query None) = Returns resp ->
  raise_for_status resp = Returns tt ->
  Response_json resp = Returns data ->
  _extract_location_ids data = Returns [] ->
  (clock (S (S (List.length (trace w))))
   - RateLimit._last_reset (rate_limit (snd (rate_limit_check clock w))) <= 1)%Q ->
  fst (brave_local_search clock upstream py_str query count w)
  = Raises RateLimitError.
Proof.
  intros Hcount Hps Hcheck Hget Hstatus Hjson Hids Hnow.
  rewrite (fallback_eq _ _ _ _ _ Hcheck Hget Hstatus Hjson Hids).
  destruct (rate_limit_check_world w) as [Hw Ho].
  rewrite Ho in Hcheck.
  destruct (check_passed_counters _ _ Hcount Hcheck) as (s & m & Hc & Hs & Hp & _).
  rewrite Hw in Hnow |- *. cbn [rate_limit] in Hnow.
  apply web_search_refused.
  rewrite (proj2 (rate_limit_check_world _)).
  unfold after. cbn [rate_limit trace].
  rewrite !length_app. cbn [List.length].
  rewrite <- Nat.add_assoc, Nat.add_comm. cbn [Nat.add].
  unfold RateLimit.check at 1.
  rewrite (window_reset_within _ _ Hnow), (admit_or_raise_spec _ _ _ Hc), Hp, Hps.
  replace (1 <=? s) with true by (symmetry; apply Z.leb_le; lia).
  reflexivity.
Qed.

(** *** Requests and admissions per call *)

Lemma gets_app (evs evs' : list event) :
  gets (evs ++ evs') = (gets evs + gets evs')%nat.
Proof. unfold gets. now rewrite List.filter_app, length_app. Qed.

Lemma checks_app (evs evs' : list event) :
  checks (evs ++ evs') = (checks evs + checks evs')%nat.
Proof. unfold checks. now rewrite List.filter_app, length_app. Qed.

Lemma costs_weaken {A} (c : M A) (g k g' k' : nat) :
  costs c g k -> (g <= g')%nat -> (k <= k')%nat -> costs c g' k'.
Proof.
  intros H Hg Hk w. destruct (H w) as (evs & Ht & H1 & H2).
  exists evs. split; [exact Ht | lia].
Qed.

Lemma costs_lift {A} (o : outcome A) : costs (lift o) 0 0.
Proof. intros w. exists []. cbn. rewrite app_nil_r. auto. Qed.

Lemma costs_ret {A} (a : A) : costs (ret a) 0 0.
Proof. intros w. exists []. cbn. rewrite app_nil_r. auto. Qed.

Lemma costs_raise {A} (e : exn) : costs (@raise A e) 0 0.
Proof. intros w. exists []. cbn. rewrite app_nil_r. auto. Qed.

Lemma costs_check : costs (rate_limit_check clock) 0 1.
Proof.
  intros w. destruct (rate_limit_check_world w) as [-> _].
  eexists. split; [reflexivity|]. cbn. lia.
Qed.

Lemma costs_get (req : Request) : costs (client_get upstream req) 1 0.
Proof. intros w. eexists. split; [reflexivity|]. cbn. lia. Qed.

Lemma costs_send (req : Request) : costs (client_send upstream req) 1 0.
Proof. intros w. eexists. split; [reflexivity|]. cbn. lia. Qed.

Lemma costs_bind {A B} (c : M A) (f : A -> M B) (g1 k1 g2 k2 : nat) :
  costs c g1 k1 ->
  (forall a, costs (f a) g2 k2) ->
  costs (bind c f) (g1 + g2) (k1 + k2).
Proof.
  intros Hc Hf w. unfold bind.
  destruct (Hc w) as (evs & Ht & H1 & H2).
  destruct (c w) as [[a|e] w1]; cbn [snd] in Ht.
  - destruct (Hf a w1) as (evs' & Ht' & H1' & H2').
    exists (evs ++ evs')%list. rewrite Ht', Ht, app_assoc, gets_app, checks_app.
    split; [reflexivity | lia].
  - exists evs. cbn [snd]. split; [exact Ht | lia].
Qed.

Lemma costs_prefix {A} (c : M A) (bound : list event) :
  (forall w, exists evs, snd (c w) = after w evs /\ evs `prefix_of` bound) ->
  costs c (gets bound) (checks bound).
Proof.
  intros H w. destruct (H w) as (evs & -> & (rest & ->)).
  exists evs. split; [reflexivity|]. rewrite gets_app, checks_app. lia.
Qed.

Lemma costs_details (ids : list json) :
  costs (_get_location_details upstream ids) 2 0.
Proof.
  unfold _get_location_details.
  apply (costs_bind _ _ 1 0 1 0); [apply costs_send|]. intros pois_sent.
  apply (costs_bind _ _ 1 0 0 0); [apply costs_send|]. intros desc_sent.
  apply (costs_bind _ _ 0 0 0 0); [apply costs_lift|]. intros r1.
  apply (costs_bind _ _ 0 0 0 0); [apply costs_lift|]. intros r2.
  apply (costs_bind _ _ 0 0 0 0); [apply costs_lift|]. intros p.
  apply (costs_bind _ _ 0 0 0 0); [apply costs_lift|]. intros d.
  apply costs_ret.
Qed.

Lemma costs_web_search (query : string) (count offset : Z) :
  costs (brave_web_search clock upstream query count offset) 1 1.
Proof.
  unfold brave_web_search.
  apply (costs_bind _ _ 0 1 1 0); [apply costs_check|]. intros _.
  apply (costs_bind _ _ 1 0 0 0); [apply costs_get|]. intros resp.
  apply (costs_bind _ _ 0 0 0 0); [apply costs_lift|]. intros _.
  apply (costs_bind _ _ 0 0 0 0); [apply costs_lift|]. intros data.
  apply costs_ret.
Qed.

Lemma costs_format_web (data : json) (min_results : Z) :
  costs (_format_web_results upstream data min_results) 2 0.
Proof.
  apply (costs_prefix _ [EvGet (web_request (query_param data) 20);
                         EvGet (web_request (query_param data) 40)]).
  intros w. apply format_web_results_world.
Qed.

Lemma costs_local_backfill (query : string) (location_ids : list json) :
  costs (local_backfill upstream query location_ids 0) 2 0.
Proof.
  apply (costs_prefix _ [EvGet (local_request query (Some 20));
                         EvGet (local_request query (Some 40))]).
  intros w. apply local_backfill_from_0.
Qed.

(** X11. One call of [brave_web_search] sends at most one request after
    one call of [check]; awaited, it sends at most three requests.  One
    call of [brave_local_search] sends at most five requests - the first
    page, two more pages and the two detail requests - and calls [check]
    at most twice, the second time in the fallback. *)
Theorem requests_per_call (query : string) (count offset : Z) :
  costs (brave_web_search clock upstream query count offset) 1 1
  /\ costs (web_search_awaited clock upstream query count offset) 3 1
  /\ costs (brave_local_search clock upstream py_str query count) 5 2.
Proof.
  split; [apply costs_web_search|]. split.
  - unfold web_search_awaited.
    apply (costs_bind _ _ 1 1 2 0); [apply costs_web_search|]. intros [ls|data m].
    + apply (costs_weaken _ 0 0); [apply costs_raise | lia | lia].
    + apply costs_format_web.
  - unfold brave_local_search.
    apply (costs_bind _ _ 0 1 5 1); [apply costs_check|]. intros _.
    apply (costs_bind _ _ 1 0 4 1); [apply costs_get|]. intros resp.
    apply (costs_bind _ _ 0 0 4 1); [apply costs_lift|]. intros _.
    apply (costs_bind _ _ 0 0 4 1); [apply costs_lift|]. intros data.
    apply (costs_bind _ _ 0 0 4 1); [apply costs_lift|]. intros [|id ids].
    + apply (costs_weaken _ 1 1); [apply costs_web_search | lia | lia].
    + apply (costs_weaken _ 4 0); [|lia|lia].
      apply (costs_bind _ _ 2 0 2 0); [apply costs_local_backfill|]. intros found.
      apply (costs_bind _ _ 2 0 0 0); [apply costs_details|]. intros details.
      apply (costs_bind _ _ 0 0 0 0); [apply costs_lift|]. intros locations.
      apply costs_ret.
Qed.

(** X12. [_get_location_details] always sends its two requests, the PoI
    request first, both with the identifiers it was given, and it leaves
    the rate limit alone - also when the first request got no response. *)
Theorem details_sends_both_requests (ids : list json) (w : World) :
  snd (_get_location_details upstream ids w)
  = after w [EvGet (details_request "/local/pois" ids);
             EvGet (details_request "/local/descriptions" ids)].
Proof.
  unfold _get_location_details, bind, lift, ret, client_send, after.
  cbn [trace rate_limit snd]. rewrite <- app_assoc. cbn [app].
  destruct (upstream (List.length (trace w)) _) as [r1|e1]; cbn [snd];
    [|reflexivity].
  destruct (upstream _ (details_request "/local/descriptions" ids)) as [r2|e2];
    cbn [snd]; [|reflexivity].
  destruct (Response_json r1); cbn [snd]; [|reflexivity].
  destruct (Response_json r2); reflexivity.
Qed.

End ToolFacts.

Lemma refused_call_sends_no_request_witness :
  fst (BraveSearchServer.brave_web_search half_second three_per_page "acme" 20 0
         (snd (BraveSearchServer.brave_web_search half_second three_per_page
                 "acme" 20 0 started)))
  = Raises RateLimitError
  /\ BraveSearchServer.events_of
       (BraveSearchServer.brave_web_search half_second three_per_page "acme" 20 0)
       (snd (BraveSearchServer.brave_web_search half_second three_per_page
               "acme" 20 0 started))
     = [EvCheck (1 # 2)].
Proof.
  apply (refused_call_sends_no_request half_second three_per_page no_str "acme" 20 0
           (snd (BraveSearchServer.brave_web_search half_second three_per_page
                   "acme" 20 0 started))
           RateLimitError).
  reflexivity.
Defined.

Lemma status_error_aborts_witness :
  fst (BraveSearchServer.brave_web_search half_second always_503 "acme" 20 0 started)
  = Raises HTTPStatusError
  /\ fst (BraveSearchServer.brave_local_search half_second always_503 no_str
            "acme" 20 started)
     = Raises HTTPStatusError.
Proof.
  destruct (status_error_aborts half_second always_503 no_str "acme" 20 0 started
              {| status_code := 503; content := Some three_results |}
              {| status_code := 503; content := Some three_results |}
              ltac:(reflexivity)) as [Hweb Hlocal].
  split.
  - apply Hweb; [reflexivity | right; cbn; lia].
  - apply Hlocal; [reflexivity | right; cbn; lia].
Defined.

Lemma fallback_refused_within_window_witness :
  fst (BraveSearchServer.brave_local_search half_second three_per_page no_str
         "acme" 20 started)
  = Raises RateLimitError.
Proof.
  apply (fallback_refused_within_window half_second three_per_page no_str "acme" 20
           started {| status_code := 200; content := Some three_results |}
           three_results).
  - exists 0, 0. repeat split; done.
  - reflexivity.
  - reflexivity.
  - reflexivity.
  - reflexivity.
  - reflexivity.
  - reflexivity.
  - vm_compute. discriminate.
Defined.

(** ** The backfill loops: what they keep, and when they stop *)

Section LoopFacts.
Import BraveSearchServer.
Variable upstream : nat -> Request -> outcome Response.

Lemma web_backfill_step_extends data items offset w wr' w' :
  web_backfill_step upstream data (JList items) offset w = (Returns wr', w') ->
  exists added, wr' = JList (items ++ added)%list.
Proof.
  unfold web_backfill_step, bind, lift, client_get, extend.
  destruct (Py.dict_get data "query" (JStr "")) as [q|e]; [|discriminate]. cbn.
  destruct (upstream _ _) as [resp|e]; [|discriminate]. cbn.
  destruct (Response_json resp) as [d|e]; [|discriminate]. cbn.
  destruct (results_of "web" d) as [more|e]; [|discriminate]. cbn.
  destruct (Py.iter more) as [added|e]; [|discriminate]. cbn.
  intros H. inversion H. eauto.
Qed.

Lemma local_backfill_step_extends query ids offset w ids' w' :
  local_backfill_step upstream query ids offset w = (Returns ids', w') ->
  exists added, ids' = (ids ++ added)%list.
Proof.
  unfold local_backfill_step, bind, lift, client_get, ret.
  destruct (upstream _ _) as [resp|e]; [|discriminate]. cbn.
  destruct (Response_json resp) as [d|e]; [|discriminate]. cbn.
  destruct (_extract_location_ids d) as [more|e]; [|discriminate]. cbn.
  intros H. inversion H. eauto.
Qed.

Lemma web_backfill_keeps :
  forall data min_results web_results offset w,
    forall items r,
      web_results = JList items ->
      fst (web_backfill upstream data min_results web_results offset w) = Returns r ->
      exists added, r = JList (items ++ added)%list.
Proof.
  apply (web_backfill_elim upstream
           (fun data min_results web_results offset w res =>
              forall items r,
                web_results = JList items ->
                fst res = Returns r ->
                exists added, r = JList (items ++ added)%list)).
  - intros data min_results web_results e offset w _ items r _ H. discriminate.
  - intros data min_results web_results size offset e w _ _ items r -> H.
    cbn in H. inversion H. exists []. now rewrite app_nil_r.
  - intros data min_results web_results size offset Htest w wr' w' IH Hstep _ _
      items r -> H.
    destruct (web_backfill_step_extends _ _ _ _ _ _ Hstep) as (added & ->).
    destruct (IH _ _ eq_refl H) as (added' & ->).
    exists (added ++ added')%list. now rewrite app_assoc.
  - intros data min_results web_results size offset Htest w e w' _ _ _ items r _ H.
    discriminate.
Qed.

Lemma local_backfill_keeps :
  forall query ids offset w,
    forall r,
      fst (local_backfill upstream query ids offset w) = Returns r ->
      exists added, r = (ids ++ added)%list.
Proof.
  apply (local_backfill_elim upstream
           (fun query ids offset w res =>
              forall r, fst res = Returns r -> exists added, r = (ids ++ added)%list)).
  - intros query ids offset e w _ r H. cbn in H. inversion H.
    exists []. now rewrite app_nil_r.
  - intros query ids offset Htest w ids' w' IH Hstep _ r H.
    destruct (local_backfill_step_extends _ _ _ _ _ _ Hstep) as (added & ->).
    destruct (IH _ H) as (added' & ->).
    exists (added ++ added')%list. now rewrite app_assoc.
  - intros query ids offset Htest w e w' _ _ r H. discriminate.
Qed.

(** X13. From whatever offset they start, the two loops only ever append:
    what they return begins with the results, or the identifiers, that
    they were given, in the same order. *)
Theorem backfill_keeps_gathered (data : json) (min_results : Z) (items : list json)
    (query : string) (ids : list json) (offset : Z) (w : World) :
  (forall r,
      fst (web_backfill upstream data min_results (JList items) offset w) = Returns r ->
      exists added, r = JList (items ++ added)%list)
  /\ (forall r,
        fst (local_backfill upstream query ids offset w) = Returns r ->
        exists added, r = (ids ++ added)%list).
Proof.
  split.
  - intros r H. eapply web_backfill_keeps; [reflexivity | exact H].
  - apply local_backfill_keeps.
Qed.

Lemma slice_to_max {A} (n : Z) (l : list A) :
  Py.slice_to (Z.max n (size_of l)) l = l.
Proof.
  unfold Py.slice_to, size_of. apply firstn_all2. lia.
Qed.

(** X15. When the first page already holds [min_results] results, the
    formatting sends no request and formats exactly the results of that
    page; when the first page already holds ten identifiers, the location
    loop sends no request either. *)
Theorem enough_results_no_fetch (data : json) (items : list json)
    (min_results : Z) (query : string) (ids : list json) (w : World) :
  (results_of "web" data = Returns (JList items) ->
   min_results <= size_of items ->
   _format_web_results upstream data min_results w = (web_entries items, w))
  /\ (10 <= size_of ids ->
      local_backfill upstream query ids 0 w = (Returns ids, w)).
Proof.
  split.
  - intros Hres Hmin.
    unfold _format_web_results, bind, lift, ret. rewrite Hres. cbn [Py.len].
    fold (size_of items).
    replace (size_of items <? min_results) with false
      by (symmetry; apply Z.ltb_ge; lia).
    cbn [Py.len]. fold (size_of items).
    unfold sliced. now rewrite slice_to_max.
  - intros Hten. rewrite local_backfill_eq. unfold while_test.
    fold (size_of ids).
    replace (size_of ids <? 10) with false by (symmetry; apply Z.ltb_ge; lia).
    reflexivity.
Qed.

(** X16. A page request that gets no response ends the loop at once: the
    run raises the transport error, having sent that one request, and
    what had been gathered is not returned. *)
Theorem backfill_aborts_on_failed_request (data q : json) (items : list json)
    (min_results : Z) (query : string) (ids : list json) (w : World) (e : exn) :
  (Py.dict_get data "query" (JStr "") = Returns q ->
   size_of items < min_results ->
   upstream (List.length (trace w)) (web_request q 20) = Raises e ->
   web_backfill upstream data min_results (JList items) 0 w
   = (Raises e, after w [EvGet (web_request q 20)]))
  /\ (size_of ids < 10 ->
      upstream (List.length (trace w)) (local_request query (Some 20)) = Raises e ->
      local_backfill upstream query ids 0 w
      = (Raises e, after w [EvGet (local_request query (Some 20))])).
Proof.
  split.
  - intros Hq Hsize Hget.
    rewrite web_backfill_eq. cbn [Py.len]. fold (size_of items).
    rewrite while_test_below by lia.
    replace (min_results <=? size_of items) with false
      by (symmetry; apply Z.leb_gt; lia).
    cbn [negb]. change (0 + 20) with 20.
    unfold web_backfill_step, bind, lift, client_get. rewrite Hq. cbn.
    now rewrite Hget.
  - intros Hsize Hget.
    rewrite local_backfill_eq. fold (size_of ids).
    rewrite while_test_below by lia.
    replace (10 <=? size_of ids) with false by (symmetry; apply Z.leb_gt; lia).
    cbn [negb]. change (0 + 20) with 20.
    unfold local_backfill_step, bind, lift, client_get. now rewrite Hget.
Qed.

End LoopFacts.

Section GatheredFacts.
Import BraveSearchServer.
Variable clock : nat -> Q.
Variable upstream : nat -> Request -> outcome Response.
Variable py_str : json -> string.

(** The world that [_get_location_details] leaves. *)
Lemma details_world (ids : list json) (w : World) :
  snd (_get_location_details upstream ids w)
  = after w [EvGet (details_request "/local/pois" ids);
             EvGet (details_request "/local/descriptions" ids)].
Proof.
  unfold _get_location_details, bind, lift, ret, client_send, after.
  cbn [trace rate_limit snd]. rewrite <- app_assoc. cbn [app].
  destruct (upstream (List.length (trace w)) _) as [r1|e1]; cbn [snd];
    [|reflexivity].
  destruct (upstream _ (details_request "/local/descriptions" ids)) as [r2|e2];
    cbn [snd]; [|reflexivity].
  destruct (Response_json r1); cbn [snd]; [|reflexivity].
  destruct (Response_json r2); reflexivity.
Qed.

(** X14. Nothing that was gathered is cut off.  When the web loop returns
    a list, [_format_web_results] formats every result of that list; and
    when the location loop returns a list of identifiers,
    [brave_local_search] puts every one of them, beyond the tenth too, in
    the two detail requests that it then sends. *)
Theorem gathered_items_all_used :
  (forall (data : json) (min_results : Z) (first_page items : list json)
          (w w' : World),
      results_of "web" data = Returns (JList first_page) ->
      size_of first_page < min_results ->
      web_backfill upstream data min_results (JList first_page) 0 w
      = (Returns (JList items), w') ->
      _format_web_results upstream data min_results w = (web_entries items, w'))
  /\ (forall (query : string) (count : Z) (w w' : World) (resp : Response)
             (data id : json) (ids found : list json),
        fst (rate_limit_check clock w) = Returns tt ->
        upstream (S (List.length (trace w))) (local_request query None)
          = Returns resp ->
        raise_for_status resp = Returns tt ->
        Response_json resp = Returns data ->
        _extract_location_ids data = Returns (id :: ids) ->
        local_backfill upstream query (id :: ids) 0
          (after (snd (rate_limit_check clock w)) [EvGet (local_request query None)])
        = (Returns found, w') ->
        snd (brave_local_search clock upstream py_str query count w)
        = after w' [EvGet (details_request "/local/pois" found);
                    EvGet (details_request "/local/descriptions" found)]).
Proof.
  split.
  - intros data min_results first_page items w w' Hres Hsize Hloop.
    unfold _format_web_results, bind, lift, ret. rewrite Hres. cbn [Py.len].
    fold (size_of first_page).
    replace (size_of first_page <? min_results) with true
      by (symmetry; apply Z.ltb_lt; lia).
    rewrite Hloop. cbn [Py.len]. fold (size_of items).
    unfold sliced. now rewrite slice_to_max.
  - intros query count w w' resp data id ids found
      Hcheck Hget Hstatus Hjson Hids Hloop.
    unfold brave_local_search. unfold bind at 1.
    destruct (rate_limit_check_world clock w) as [Hw _].
    destruct (rate_limit_check clock w) as [o w1]. cbn [fst snd] in *. subst o w1.
    unfold after in Hloop. cbn [rate_limit trace] in Hloop.
    unfold bind at 1. unfold client_get at 1. cbn [rate_limit trace].
    rewrite length_app, Nat.add_comm. cbn [List.length Nat.add]. rewrite Hget.
    unfold bind at 1. unfold lift at 1. rewrite Hstatus.
    unfold bind at 1. unfold lift at 1. rewrite Hjson.
    unfold bind at 1. unfold lift at 1. rewrite Hids.
    unfold bind at 1. rewrite Hloop.
    fold (size_of found). rewrite slice_to_max.
    unfold bind at 1.
    pose proof (details_world found w') as Hd.
    destruct (_get_location_details upstream found w') as [[details|e] w4];
      cbn [snd] in Hd; subst w4; [|reflexivity].
    unfold bind, lift, ret.
    destruct (_format_local_results py_str details.1 details.2); reflexivity.
Qed.

End GatheredFacts.

Lemma gathered_items_all_used_witness :
  BraveSearchServer._format_web_results three_per_page three_results 10 started
  = (BraveSearchServer.web_entries ((abc ++ abc) ++ abc)%list,
     BraveSearchServer.after started
       [EvGet (BraveSearchServer.web_request (JStr "acme") 20);
        EvGet (BraveSearchServer.web_request (JStr "acme") 40)])
  /\ snd (BraveSearchServer.brave_local_search half_second twelve_per_page no_str
            "cafe" 20 started)
     = BraveSearchServer.after
         (BraveSearchServer.after
            (snd (BraveSearchServer.rate_limit_check half_second started))
            [EvGet (BraveSearchServer.local_request "cafe" None)])
         [EvGet (BraveSearchServer.details_request "/local/pois" twelve_ids);
          EvGet (BraveSearchServer.details_request "/local/descriptions" twelve_ids)].
Proof.
  destruct (gathered_items_all_used half_second twelve_per_page no_str) as [_ Hlocal].
  destruct (gathered_items_all_used half_second three_per_page no_str) as [Hweb _].
  split.
  - apply (Hweb three_results 10 abc); [reflexivity | reflexivity | reflexivity].
  - apply (Hlocal "cafe" 20 started _
             {| status_code := 200; content := Some twelve_locations |}
             twelve_locations (JStr "l1")
             (map JStr ["l2"; "l3"; "l4"; "l5"; "l6"; "l7"; "l8"; "l9"; "l10";
                        "l11"; "l12"])
             twelve_ids); reflexivity.
Defined.

Lemma backfill_keeps_gathered_witness :
  exists added, JList ((abc ++ abc) ++ abc)%list = JList (abc ++ added)%list.
Proof.
  apply (proj1 (backfill_keeps_gathered three_per_page three_results 10 abc
                  "acme" [] 0 started)).
  reflexivity.
Defined.

Lemma enough_results_no_fetch_witness :
  BraveSearchServer._format_web_results three_per_page three_results 3 started
  = (BraveSearchServer.web_entries abc, started).
Proof.
  apply (proj1 (enough_results_no_fetch three_per_page three_results abc 3
                  "acme" [] started)).
  - reflexivity.
  - vm_compute. discriminate.
Defined.

Lemma backfill_aborts_on_failed_request_witness :
  BraveSearchServer.web_backfill unreachable three_results 10 (JList abc) 0 started
  = (Raises TransportError,
     BraveSearchServer.after started
       [EvGet (BraveSearchServer.web_request (JStr "acme") 20)]).
Proof.
  apply (proj1 (backfill_aborts_on_failed_request unreachable three_results
                  (JStr "acme") abc 10 "acme" [] started TransportError)).
  - reflexivity.
  - reflexivity.
  - reflexivity.
Defined.

(** ** Extraction of identifiers and formatting of locations *)

Section FormatFacts.
Import BraveSearchServer.
Variable py_str : json -> string.

Lemma ids_of_dicts (items : list json) :
  Forall (fun entry => is_dict entry = true) items ->
  ids_of items = Returns (omap id_of_entry items).
Proof.
  induction 1 as [|entry items Hd _ IH]; [reflexivity|].
  destruct entry; try discriminate. cbn. rewrite IH.
  destruct (Py.assoc "id" kvs); reflexivity.
Qed.

(** X17. When every entry of [locations.results] is a dict, the extraction
    never raises: it returns the ["id"] values of the entries that have
    one, in the order of the payload and with repetitions kept, and leaves
    the other entries out. *)
Theorem extract_ids_of_dicts (data : json) (items : list json) :
  results_of "locations" data = Returns (JList items) ->
  Forall (fun entry => is_dict entry = true) items ->
  _extract_location_ids data = Returns (omap id_of_entry items).
Proof.
  intros Hres Hd. unfold _extract_location_ids. rewrite Hres. cbn [Py.obind Py.iter].
  now apply ids_of_dicts.
Qed.

(** X18. A payload that is a dict without ["locations"], or whose
    ["locations"] is a dict without ["results"], has no identifier; a
    payload that is not a dict makes the extraction raise
    [AttributeError]. *)
Theorem extract_ids_missing_keys (kvs inner : list (string * json)) (data : json) :
  (Py.assoc "locations" kvs = None ->
   _extract_location_ids (JDict kvs) = Returns [])
  /\ (Py.assoc "locations" kvs = Some (JDict inner) ->
      Py.assoc "results" inner = None ->
      _extract_location_ids (JDict kvs) = Returns [])
  /\ (is_dict data = false ->
      _extract_location_ids data = Raises AttributeError).
Proof.
  repeat split.
  - intros H. unfold _extract_location_ids, results_of. cbn. now rewrite H.
  - intros H1 H2. unfold _extract_location_ids, results_of. cbn.
    rewrite H1. cbn. now rewrite H2.
  - intros H. destruct data; try discriminate; reflexivity.
Qed.

(** X19. An entry of [locations.results] that is [None], a boolean or a
    number makes the extraction raise [TypeError], whatever stands after
    it, when the entries before it are dicts. *)
Theorem scalar_entry_aborts_extraction (before after_it : list json) (entry : json) :
  Forall (fun e => is_dict e = true) before ->
  is_scalar entry = true ->
  ids_of (before ++ entry :: after_it) = Raises TypeError.
Proof.
  intros Hd Hs. induction Hd as [|e before He _ IH].
  - destruct entry; try discriminate; reflexivity.
  - destruct e; try discriminate.
    cbn [app ids_of Py.contains Py.obind].
    destruct (Py.assoc "id" kvs) as [id|] eqn:E.
    + cbn [Py.getitem]. rewrite E, IH. reflexivity.
    + exact IH.
Qed.

Lemma locations_of_each (descriptions : json) (pois : list json) :
  forall ls,
    locations_of py_str descriptions pois = Returns ls ->
    Forall2 (fun poi l => location_of py_str descriptions poi = Returns l) pois ls.
Proof.
  induction pois as [|poi rest IH]; intros ls H.
  - cbn in H. inversion H. constructor.
  - cbn [locations_of] in H.
    destruct (location_of py_str descriptions poi) as [l|e] eqn:E; [|discriminate].
    cbn [Py.obind] in H.
    destruct (locations_of py_str descriptions rest) as [ls'|e]; [|discriminate].
    cbn [Py.obind] in H. inversion H. constructor; [exact E | now apply IH].
Qed.

(** X20. When [_format_local_results] returns, its text has one block per
    entry of [pois["results"]], in the order of the payload, each built
    from its own entry; a PoI payload that is a dict without ["results"]
    gives no block at all. *)
Theorem format_local_one_per_poi (pois descriptions : json) :
  (forall items ls,
      Py.dict_get pois "results" (JList []) = Returns (JList items) ->
      _format_local_results py_str pois descriptions = Returns ls ->
      Forall2 (fun poi l => location_of py_str descriptions poi = Returns l) items ls)
  /\ (forall kvs,
        pois = JDict kvs ->
        Py.assoc "results" kvs = None ->
        _format_local_results py_str pois descriptions = Returns []).
Proof.
  split.
  - intros items ls Hres H. unfold _format_local_results in H.
    rewrite Hres in H. cbn [Py.obind Py.iter] in H. now apply locations_of_each.
  - intros kvs -> H. unfold _format_local_results. cbn. now rewrite H.
Qed.

(** Inversion of a bind that returned. *)
Lemma obind_returns {A B} (o : outcome A) (k : A -> outcome B) (b : B) :
  Py.obind o k = Returns b -> exists a, o = Returns a /\ k a = Returns b.
Proof. destruct o as [a|e]; cbn; [eauto | discriminate]. Qed.

(** X21. In a block that [_format_local_results] builds, the description
    is the entry of [descriptions["descriptions"]] under the PoI's
    identifier when there is one, and "No description available" when
    there is none. *)
Theorem description_joined_by_id (descriptions poi : json) (l : location)
    (texts : list (string * json)) (k : string) :
  location_of py_str descriptions poi = Returns l ->
  Py.dict_get descriptions "descriptions" (JDict []) = Returns (JDict texts) ->
  Py.getitem poi "id" = Returns (JStr k) ->
  loc_description l
  = match Py.assoc k texts with
    | Some text => text
    | None => JStr "No description available"
    end.
Proof.
  intros H Hd Hid. unfold location_of in H.
  do 10 (apply obind_returns in H as (? & _ & H)).
  apply obind_returns in H as (d & Hdesc & H).
  inversion H. cbn [loc_description].
  unfold description_of in Hdesc. rewrite Hd in Hdesc. cbn [Py.obind] in Hdesc.
  rewrite Hid in Hdesc. cbn [Py.obind] in Hdesc. now inversion Hdesc.
Qed.

Lemma str_parts_strings (vs : list json) :
  forallb falsy_or_str vs = true ->
  exists parts, str_parts (List.filter Py.truthy vs) = Returns parts.
Proof.
  induction vs as [|v vs IH]; intros H; [cbn; eauto|].
  cbn [forallb] in H. apply andb_prop in H as [Hv Hvs].
  destruct (IH Hvs) as (parts & Hp). cbn [List.filter].
  destruct (Py.truthy v) eqn:Ht; [|eauto].
  unfold falsy_or_str in Hv. rewrite Ht in Hv. cbn in Hv.
  destruct v; try discriminate. cbn [str_parts]. rewrite Hp. cbn. eauto.
Qed.

Lemma str_parts_not_strings (vs : list json) :
  forallb falsy_or_str vs = false ->
  str_parts (List.filter Py.truthy vs) = Raises TypeError.
Proof.
  induction vs as [|v vs IH]; intros H; [discriminate|].
  cbn [forallb] in H. cbn [List.filter].
  destruct (falsy_or_str v) eqn:Hv.
  - cbn [andb] in H. specialize (IH H).
    destruct (Py.truthy v) eqn:Ht; [|exact IH].
    unfold falsy_or_str in Hv. rewrite Ht in Hv. cbn in Hv.
    destruct v; try discriminate. cbn [str_parts]. now rewrite IH.
  - unfold falsy_or_str in Hv. apply orb_false_elim in Hv as [Ht Hs].
    apply negb_false_iff in Ht. rewrite Ht.
    destruct v; try discriminate; reflexivity.
Qed.

Lemma or_NA_not_empty (s : string) : or_NA s <> "".
Proof.
  unfold or_NA. destruct (String.eqb s "") eqn:E; [discriminate|].
  now apply String.eqb_neq in E.
Qed.

(** X22. On an address that is a dict, [_format_address] returns a text
    that is never empty when each of the four components is a [str] or a
    value that counts as false, and raises [TypeError] as soon as one of
    them is anything else - a postal code given as a number, say. *)
Theorem format_address_outcome (kvs : list (string * json)) :
  if forallb falsy_or_str (address_components kvs)
  then exists s, _format_address (JDict kvs) = Returns s /\ s <> ""
  else _format_address (JDict kvs) = Raises TypeError.
Proof.
  unfold _format_address. cbn [Py.dict_get Py.obind].
  change [match Py.assoc "streetAddress" kvs with Some v => v | None => JStr "" end;
          match Py.assoc "addressLocality" kvs with Some v => v | None => JStr "" end;
          match Py.assoc "addressRegion" kvs with Some v => v | None => JStr "" end;
          match Py.assoc "postalCode" kvs with Some v => v | None => JStr "" end]
    with (address_components kvs).
  destruct (forallb falsy_or_str (address_components kvs)) eqn:E.
  - destruct (str_parts_strings _ E) as (parts & ->). cbn [Py.obind].
    eexists. split; [reflexivity | apply or_NA_not_empty].
  - now rewrite (str_parts_not_strings _ E).
Qed.

End FormatFacts.

Lemma extract_ids_of_dicts_witness :
  BraveSearchServer._extract_location_ids mixed_locations
  = Returns [JStr "a"; JStr "a"].
Proof.
  apply (extract_ids_of_dicts mixed_locations
           [JDict [("id", JStr "a")]; JDict [("title", JStr "no id")];
            JDict [("id", JStr "a")]]).
  - reflexivity.
  - repeat constructor.
Defined.

Lemma extract_ids_missing_keys_witness :
  BraveSearchServer._extract_location_ids three_results = Returns []
  /\ BraveSearchServer._extract_location_ids (JList []) = Raises AttributeError.
Proof.
  split.
  - apply (proj1 (extract_ids_missing_keys
                    [("query", JStr "acme");
                     ("web", JDict [("results", JList abc)])] [] JNull)).
    reflexivity.
  - apply (proj2 (proj2 (extract_ids_missing_keys [] [] (JList [])))). reflexivity.
Defined.

Lemma scalar_entry_aborts_extraction_witness :
  BraveSearchServer.ids_of
    ([JDict [("id", JStr "a")]] ++ JNull :: [JDict [("id", JStr "b")]])
  = Raises TypeError.
Proof.
  apply scalar_entry_aborts_extraction; [repeat constructor | reflexivity].
Defined.

Lemma format_local_one_per_poi_witness :
  BraveSearchServer._format_local_results no_str error_payload description_payload
  = Returns [].
Proof.
  apply (proj2 (format_local_one_per_poi no_str error_payload description_payload)
           [("type", JStr "ErrorResponse")]); reflexivity.
Defined.

Lemma description_joined_by_id_witness :
  exists l,
    BraveSearchServer.location_of no_str description_payload
      (JDict [("id", JStr "loc1"); ("name", JStr "Cafe")]) = Returns l
    /\ loc_description l = JStr "A cafe".
Proof.
  eexists. split; [reflexivity|].
  apply (description_joined_by_id no_str description_payload
           (JDict [("id", JStr "loc1"); ("name", JStr "Cafe")]) _
           [("loc1", JStr "A cafe")] "loc1"); reflexivity.
Defined.

(** ** The homepage resolver: what a result can be *)

Section ResolverSoundness.
Import FindHomepages.
Variable hostname : json -> outcome (option string).
Variable httpx_get : Request -> outcome Response.

Lemma official_candidate_true (u : json) (company : string) :
  is_official_candidate hostname u company = Returns true ->
  exists h,
    hostname u = Returns h
    /\ substring_denied (or_empty h) = false
    /\ Py.str_in (Py.lower company) (Py.lower (or_empty h)) = true.
Proof.
  unfold is_official_candidate, substring_denied.
  destruct (hostname u) as [h|e]; [|discriminate]. cbn [Py.obind].
  destruct (existsb _ BLACKLIST) eqn:E; [discriminate|].
  intros H. inversion H. exists h. auto.
Qed.

Lemma first_pass_returns (company : string) (items : list json) (u : json) :
  first_pass hostname company items = Returns (Some u) ->
  exists r h,
    In r items
    /\ Py.dict_get r "url" (JStr "") = Returns u
    /\ hostname u = Returns h
    /\ substring_denied (or_empty h) = false
    /\ Py.str_in (Py.lower company) (Py.lower (or_empty h)) = true.
Proof.
  induction items as [|r rest IH]; intros H; [discriminate|].
  cbn [first_pass] in H.
  destruct (Py.dict_get r "url" (JStr "")) as [v|e] eqn:Hv; [|discriminate].
  cbn [Py.obind] in H.
  destruct (is_official_candidate hostname v company) as [[|]|e] eqn:Hc;
    cbn [Py.obind] in H; [| |discriminate].
  - inversion H; subst v.
    destruct (official_candidate_true _ _ Hc) as (h & H1 & H2 & H3).
    exists r, h. repeat split; auto. now left.
  - destruct (IH H) as (r' & h & Hin & Hrest). exists r', h. split; [now right | exact Hrest].
Qed.

(** X23. A URL that the first pass returns belongs to one of the results,
    its host contains no entry of the blacklist, and its host contains the
    company name, both in lower case. *)
Theorem first_pass_sound (company : string) (items : list json) (u : json) :
  first_pass hostname company items = Returns (Some u) ->
  exists r h,
    In r items
    /\ Py.dict_get r "url" (JStr "") = Returns u
    /\ hostname u = Returns h
    /\ substring_denied (or_empty h) = false
    /\ Py.str_in (Py.lower company) (Py.lower (or_empty h)) = true.
Proof. apply first_pass_returns. Qed.

Lemma second_pass_sound (items : list json) (u : json) :
  second_pass hostname items = Returns (Some u) ->
  exists r h,
    In r items
    /\ Py.dict_get r "url" (JStr "") = Returns u
    /\ hostname u = Returns h
    /\ forall host, h = Some host -> ~ In host BLACKLIST.
Proof.
  induction items as [|r rest IH]; intros H; [discriminate|].
  cbn [second_pass] in H.
  destruct (Py.dict_get r "url" (JStr "")) as [v|e] eqn:Hv; [|discriminate].
  cbn [Py.obind] in H. unfold not_in_BLACKLIST in H.
  destruct (hostname v) as [h|e] eqn:Hh; [|discriminate]. cbn [Py.obind] in H.
  destruct (negb _) eqn:Hn.
  - inversion H; subst v. exists r, h. repeat split; auto; [now left|].
    intros host -> Hin. apply negb_true_iff in Hn.
    assert (existsb (String.eqb host) BLACKLIST = true); [|congruence].
    apply existsb_exists. exists host. split; [exact Hin | apply String.eqb_refl].
  - destruct (IH H) as (r' & h' & Hin & Hrest).
    exists r', h'. split; [now right | exact Hrest].
Qed.

Lemma not_denied_not_listed (h : option string) :
  substring_denied (or_empty h) = false ->
  forall host, h = Some host -> ~ In host BLACKLIST.
Proof.
  intros Hs host -> Hin. cbn [or_empty] in Hs.
  assert (substring_denied host = true); [|congruence].
  apply in_BLACKLIST_denied. apply existsb_exists.
  exists host. split; [exact Hin | apply String.eqb_refl].
Qed.

(** X24. Whatever the two passes return is [None] or the ["url"] of one of
    the results, and the host of that URL is not an entry of the
    blacklist. *)
Theorem scan_sound (company : string) (items : list json) (v : json) :
  scan hostname company (JList items) = Returns v ->
  v = JNull
  \/ exists r h,
      In r items
      /\ Py.dict_get r "url" (JStr "") = Returns v
      /\ hostname v = Returns h
      /\ forall host, h = Some host -> ~ In host BLACKLIST.
Proof.
  unfold scan. cbn [Py.iter Py.obind].
  destruct (first_pass hostname company items) as [[u|]|e] eqn:H1;
    cbn [Py.obind]; [| |discriminate].
  - intros H. inversion H; subst v. right.
    destruct (first_pass_returns _ _ _ H1) as (r & h & Hin & Hu & Hh & Hd & _).
    exists r, h. repeat split; auto. now apply not_denied_not_listed.
  - destruct (second_pass hostname items) as [[u|]|e] eqn:H2;
      cbn [Py.obind]; [| |discriminate].
    + intros H. inversion H; subst v. right. now apply second_pass_sound.
    + intros H. inversion H. now left.
Qed.

Lemma endswith_str_in (hay needle : string) :
  Py.endswith hay needle = true -> Py.str_in needle hay = true.
Proof.
  induction hay as [|c hay IH]; cbn [Py.endswith Py.str_in]; intros H.
  - rewrite orb_false_r in H. apply String.eqb_eq in H. subst needle. reflexivity.
  - apply orb_true_iff in H as [H|H].
    + apply String.eqb_eq in H. subst needle. now rewrite prefix_refl.
    + rewrite (IH H). apply orb_true_r.
Qed.

(** X25. A URL whose host is an entry of the blacklist, or ends with one,
    is never an official candidate, whatever the company name. *)
Theorem suffix_denied_rejected (u : json) (company h d : string) :
  hostname u = Returns (Some h) ->
  In d BLACKLIST ->
  Py.endswith h d = true ->
  is_official_candidate hostname u company = Returns false.
Proof.
  intros Hh Hin Hend. unfold is_official_candidate. rewrite Hh.
  cbn [Py.obind or_empty].
  replace (existsb (fun domain => Py.str_in domain h) BLACKLIST) with true;
    [reflexivity|].
  symmetry. apply existsb_exists. exists d. split; [exact Hin|].
  now apply endswith_str_in.
Qed.

Lemma resolve_is_truthy (name : string) :
  Py.truthy (resolve hostname httpx_get name) = true.
Proof.
  rewrite resolve_cases.
  destruct (Py.truthy (get_brave_homepage hostname httpx_get name 10)) eqn:E1;
    [exact E1|].
  destruct (Py.truthy (get_wikidata_homepage httpx_get name)) eqn:E2;
    [exact E2 | reflexivity].
Qed.

(** X26. The value stored for a company is never [None] and never empty:
    it is a candidate, or the text "Not found". *)
Theorem resolve_truthy (name : string) :
  Py.truthy (resolve hostname httpx_get name) = true.
Proof. apply resolve_is_truthy. Qed.

Lemma brave_depends_on_request (httpx_get' : Request -> outcome Response)
    (name : string) :
  httpx_get' (brave_request name 10) = httpx_get (brave_request name 10) ->
  get_brave_homepage hostname httpx_get' name 10
  = get_brave_homepage hostname httpx_get name 10.
Proof.
  intros H. unfold get_brave_homepage, brave_try. now rewrite H.
Qed.

(** X27. When the search engine yields a candidate, the result is that
    candidate whatever the knowledge base would answer: two worlds that
    answer the search request alike resolve the name alike. *)
Theorem resolve_ignores_knowledge_base (httpx_get' : Request -> outcome Response)
    (name : string) :
  httpx_get' (brave_request name 10) = httpx_get (brave_request name 10) ->
  Py.truthy (get_brave_homepage hostname httpx_get name 10) = true ->
  resolve hostname httpx_get' name = get_brave_homepage hostname httpx_get name 10.
Proof.
  intros H Ht. rewrite resolve_cases, (brave_depends_on_request _ _ H).
  now rewrite Ht.
Qed.

(** X28. A search request that gets no response, a status outside
    200-299 or a body that is not JSON makes the search-engine strategy
    yield [None], and the resolution goes on with the knowledge base: no
    such failure reaches the caller. *)
Theorem search_failure_falls_through (name : string) :
  (exists e, httpx_get (brave_request name 10) = Raises e)
  \/ (exists resp,
        httpx_get (brave_request name 10) = Returns resp
        /\ (status_code resp < 200 \/ 300 <= status_code resp
            \/ content resp = None)) ->
  get_brave_homepage hostname httpx_get name 10 = JNull
  /\ resolve hostname httpx_get name
     = if Py.truthy (get_wikidata_homepage httpx_get name)
       then get_wikidata_homepage httpx_get name
       else JStr "Not found".
Proof.
  intros H.
  assert (Hb : get_brave_homepage hostname httpx_get name 10 = JNull).
  { unfold get_brave_homepage, brave_try.
    destruct H as [[e ->] | (resp & -> & H)]; [reflexivity|]. cbn [Py.obind].
    destruct (raise_for_status resp) as [[]|e] eqn:Hs; [|reflexivity].
    cbn [Py.obind].
    destruct H as [H | [H | H]].
    - rewrite raise_for_status_not_2xx in Hs by (now left). discriminate.
    - rewrite raise_for_status_not_2xx in Hs by (now right). discriminate.
    - unfold Response_json. now rewrite H. }
  split; [exact Hb|]. now rewrite resolve_cases, Hb.
Qed.

Lemma out_lookup_other (names : list string) :
  forall (acc : gmap string json) (name : string),
    ~ In name names ->
    fold_left (fun out name => <[name := resolve hostname httpx_get name]> out)
      names acc !! name
    = acc !! name.
Proof.
  induction names as [|n rest IH]; intros acc name Hnot; [reflexivity|].
  cbn [fold_left]. rewrite IH by (intros H; apply Hnot; now right).
  apply lookup_insert_ne. intros ->. apply Hnot. now left.
Qed.

Lemma out_lookup_name (names : list string) :
  forall (acc : gmap string json) (name : string),
    In name names ->
    fold_left (fun out name => <[name := resolve hostname httpx_get name]> out)
      names acc !! name
    = Some (resolve hostname httpx_get name).
Proof.
  induction names as [|n rest IH]; intros acc name Hin; [destruct Hin|].
  cbn [fold_left].
  destruct (in_dec string_dec name rest) as [Hrest|Hrest]; [now apply IH|].
  destruct Hin as [->|Hin]; [|contradiction].
  rewrite out_lookup_other by exact Hrest. apply lookup_insert_eq.
Qed.

(** X29. The dict built by the main block has one entry for each name of
    the list, the resolution of that name, and none for any other name;
    no entry is [None] or empty. *)
Theorem out_covers_names (names : list string) (name : string) :
  (In name names ->
   out hostname httpx_get names !! name = Some (resolve hostname httpx_get name))
  /\ (~ In name names -> out hostname httpx_get names !! name = None)
  /\ (forall v, out hostname httpx_get names !! name = Some v -> Py.truthy v = true).
Proof.
  unfold out. split; [apply out_lookup_name|]. split.
  - intros Hnot. rewrite out_lookup_other by exact Hnot. apply lookup_empty.
  - intros v H. destruct (in_dec string_dec name names) as [Hin|Hnot].
    + rewrite out_lookup_name in H by exact Hin. inversion H. apply resolve_is_truthy.
    + rewrite out_lookup_other, lookup_empty in H by exact Hnot. discriminate.
Qed.

End ResolverSoundness.

Lemma first_pass_sound_witness :
  exists r h,
    In r wiki_then_acme_results
    /\ Py.dict_get r "url" (JStr "") = Returns (JStr "https://acme.com")
    /\ host_table (JStr "https://acme.com") = Returns h
    /\ substring_denied (FindHomepages.or_empty h) = false
    /\ Py.str_in (Py.lower "Acme") (Py.lower (FindHomepages.or_empty h)) = true.
Proof.
  apply (first_pass_sound host_table "Acme" wiki_then_acme_results
           (JStr "https://acme.com")).
  reflexivity.
Defined.

Lemma scan_sound_witness :
  JStr "https://news.example.com/acme-story" = JNull
  \/ exists r h,
      In r news_results
      /\ Py.dict_get r "url" (JStr "")
         = Returns (JStr "https://news.example.com/acme-story")
      /\ host_table (JStr "https://news.example.com/acme-story") = Returns h
      /\ forall host, h = Some host -> ~ In host FindHomepages.BLACKLIST.
Proof.
  apply (scan_sound host_table "Acme" news_results). reflexivity.
Defined.

Lemma suffix_denied_rejected_witness :
  FindHomepages.is_official_candidate host_table
    (JStr "https://en.wikipedia.org/wiki/Acme") "wikipedia"
  = Returns false.
Proof.
  apply (suffix_denied_rejected host_table _ "wikipedia" "en.wikipedia.org"
           "wikipedia.org").
  - reflexivity.
  - now left.
  - reflexivity.
Defined.

Lemma resolve_ignores_knowledge_base_witness :
  FindHomepages.resolve host_table both_sources "Acme"
  = FindHomepages.get_brave_homepage host_table search_engine_only "Acme" 10.
Proof.
  apply (resolve_ignores_knowledge_base host_table search_engine_only both_sources
           "Acme"); reflexivity.
Defined.

Lemma search_failure_falls_through_witness :
  FindHomepages.get_brave_homepage host_table search_engine_down "Acme" 10 = JNull
  /\ FindHomepages.resolve host_table search_engine_down "Acme"
     = JStr "https://acme.org/".
Proof.
  apply (search_failure_falls_through host_table search_engine_down "Acme").
  left. exists TransportError. reflexivity.
Defined.

Lemma out_covers_names_witness :
  FindHomepages.out host_table knowledge_base_only FindHomepages.companies !! "Roche"
  = Some (FindHomepages.resolve host_table knowledge_base_only "Roche")
  /\ FindHomepages.out host_table knowledge_base_only FindHomepages.companies !! "Acme"
     = None.
Proof.
  destruct (out_covers_names host_table knowledge_base_only FindHomepages.companies
              "Roche") as (Hin & _).
  destruct (out_covers_names host_table knowledge_base_only FindHomepages.companies
              "Acme") as (_ & Hout & _).
  split.
  - apply Hin. cbn. auto.
  - apply Hout. cbn. intros [H|[H|[H|[H|[]]]]]; discriminate.
Defined.

(** ** The HTTP client of the server *)

(** X30. [get_client] returns a client that is not closed and stores it;
    a second call returns that same client without making another one,
    whatever key it is given; and a stored client that is not closed is
    never replaced. *)
Theorem get_client_cached (api_key other_key : string)
    (slot : option BraveSearchServer.AsyncClient) :
  BraveSearchServer.is_closed (fst (BraveSearchServer.get_client api_key slot)) = false
  /\ snd (BraveSearchServer.get_client api_key slot)
     = Some (fst (BraveSearchServer.get_client api_key slot))
  /\ BraveSearchServer.get_client other_key
       (snd (BraveSearchServer.get_client api_key slot))
     = BraveSearchServer.get_client api_key slot
  /\ (forall c,
        slot = Some c ->
        BraveSearchServer.is_closed c = false ->
        fst (BraveSearchServer.get_client api_key slot) = c).
Proof.
  unfold BraveSearchServer.get_client.
  destruct slot as [c|]; [destruct (BraveSearchServer.is_closed c) eqn:E|];
    cbn [fst snd BraveSearchServer.is_closed]; rewrite ?E; repeat split;
    try reflexivity; try exact E.
  - intros c0 H Hc. inversion H; subst. congruence.
  - intros c0 H _. now inversion H.
  - intros c0 H. discriminate.
Qed.

Lemma get_client_cached_witness :
  BraveSearchServer.is_closed
    (fst (BraveSearchServer.get_client "key" (Some closed_client))) = false
  /\ BraveSearchServer.get_client "other"
       (snd (BraveSearchServer.get_client "key" None))
     = BraveSearchServer.get_client "key" None.
Proof.
  destruct (get_client_cached "key" "other" (Some closed_client)) as (H1 & _).
  destruct (get_client_cached "key" "other" None) as (_ & _ & H3 & _).
  split; assumption.
Defined.
